(** * Miragic SDK: the client facade, its configuration and its examples

    A shallow embedding of [miragic_sdk/core.py], [examples/config.py],
    [examples/api_usage_example.py] and [examples/cli_api_example.py].

    Python values are a small dynamic type; functions that print, touch the
    file system or reach the remote service run in a state-and-exception
    monad over an explicit [world]. *)

From Stdlib Require Import ZArith QArith String Ascii List Bool DecimalString.
From stdpp Require Import gmap strings list fin_maps.

Set Warnings "-register-all".
Close Scope Q_scope.
Open Scope Z_scope.
Open Scope string_scope.

(** ** Python values, exceptions and results *)

Module Py.

(** The three feature client classes imported at the top of [core.py]. *)
Inductive client_kind := BackgroundRemover | ImageUpscaler | BlurBackground.

(** The values that flow through the facade and the examples.  A [float]
    is the rational it denotes (the code only compares floats with
    bounds; NaN and the infinities are left out). *)
Inductive pyval :=
| PNone
| PBool (b : bool)
| PInt (z : Z)
| PFloat (q : Q)
| PStr (s : string)
| PBytes (s : string)
| PDict (items : list (string * pyval))
| PClient (k : client_kind) (api_key : pyval).

(** The exception classes that occur.  All derive from [Exception] except
    [SystemExit], which derives from [BaseException] only. *)
Inductive exn :=
| TypeError
| AttributeError
| ValueError
| FileNotFoundError
| FileExistsError
| RemoteServiceError
| SystemExit (code : Z).

Definition is_Exception (e : exn) : bool :=
  match e with
  | SystemExit _ => false
  | _ => true
  end.

Inductive result (A : Type) :=
| Ok (a : A)
| Raise (e : exn).
Arguments Ok {A} a.
Arguments Raise {A} e.

Definition result_bind {A B} (r : result A) (k : A -> result B) : result B :=
  match r with
  | Ok a => k a
  | Raise e => Raise e
  end.

(** The status with which the interpreter leaves when a script ends in
    this result: 0 after a normal end, the code of [sys.exit], 1 after any
    other uncaught exception. *)
Definition exit_status {A} (r : result A) : Z :=
  match r with
  | Ok _ => 0
  | Raise (SystemExit c) => c
  | Raise _ => 1
  end.

(** ** Text

    A [str] is held as the bytes of its UTF-8 encoding: the form in
    which the environment and the terminal hand text over, and in which
    the literals of this file are written.  [code_points] decodes it.
    Bytes that are no UTF-8 stand for no text and give [None]; in the
    environment CPython turns such a byte into an escape code point,
    which is neither white space nor a digit. *)

Definition byte (c : ascii) : Z := Z.of_nat (nat_of_ascii c).

Definition continuation (b : Z) : bool := ((128 <=? b) && (b <? 192))%Z.

(** The strict decoder: the shortest form only, no surrogates, nothing
    beyond U+10FFFF. *)
Fixpoint utf8_decode (l : list Z) : option (list Z) :=
  match l with
  | [] => Some []
  | b0 :: l1 =>
      if (b0 <? 128)%Z then cons b0 <$> utf8_decode l1
      else if (b0 <? 224)%Z then
        match l1 with
        | b1 :: l2 =>
            let c := (b0 - 192) * 64 + (b1 - 128) in
            if continuation b1 && (128 <=? c)%Z
            then cons c <$> utf8_decode l2 else None
        | _ => None
        end
      else if (b0 <? 240)%Z then
        match l1 with
        | b1 :: b2 :: l3 =>
            let c := ((b0 - 224) * 64 + (b1 - 128)) * 64 + (b2 - 128) in
            if continuation b1 && continuation b2 && (2048 <=? c)%Z
               && negb ((55296 <=? c) && (c <? 57344))%Z
            then cons c <$> utf8_decode l3 else None
        | _ => None
        end
      else
        match l1 with
        | b1 :: b2 :: b3 :: l4 =>
            let c := (((b0 - 240) * 64 + (b1 - 128)) * 64 + (b2 - 128)) * 64
                     + (b3 - 128) in
            if continuation b1 && continuation b2 && continuation b3
               && (65536 <=? c)%Z && (c <? 1114112)%Z
            then cons c <$> utf8_decode l4 else None
        | _ => None
        end
  end.

Definition code_points (s : string) : option (list Z) :=
  utf8_decode (byte <$> list_ascii_of_string s).

Definition utf8_encode (c : Z) : list Z :=
  if (c <? 128)%Z then [c]
  else if (c <? 2048)%Z then [192 + c / 64; 128 + c mod 64]
  else if (c <? 65536)%Z
  then [224 + c / 4096; 128 + (c / 64) mod 64; 128 + c mod 64]
  else [240 + c / 262144; 128 + (c / 4096) mod 64; 128 + (c / 64) mod 64;
        128 + c mod 64].

(** The text with the given code points. *)
Definition text (l : list Z) : string :=
  string_of_list_ascii
    ((fun b => ascii_of_nat (Z.to_nat b)) <$> (l ≫= utf8_encode)).

(** The code points outside ASCII that are white space for [str] (the
    Unicode database of CPython 3.11, version 14.0). *)
Definition unicode_spaces : list Z :=
  [0x85; 0xA0; 0x1680; 0x2000; 0x2001; 0x2002; 0x2003; 0x2004;
   0x2005; 0x2006; 0x2007; 0x2008; 0x2009; 0x200A; 0x2028; 0x2029;
   0x202F; 0x205F; 0x3000].

(** [str.isspace] on a code point: the white space [str.strip] removes. *)
Definition is_space (c : Z) : bool :=
  ((9 <=? c) && (c <=? 13))%Z || ((28 <=? c) && (c <=? 32))%Z
  || bool_decide (c ∈ unicode_spaces).

(** The zeros of the decimal digits outside ASCII in the same database;
    each is followed by its digits 1 to 9. *)
Definition decimal_zeros : list Z :=
  [0x660; 0x6F0; 0x7C0; 0x966; 0x9E6; 0xA66; 0xAE6; 0xB66;
   0xBE6; 0xC66; 0xCE6; 0xD66; 0xDE6; 0xE50; 0xED0; 0xF20;
   0x1040; 0x1090; 0x17E0; 0x1810; 0x1946; 0x19D0; 0x1A80; 0x1A90;
   0x1B50; 0x1BB0; 0x1C40; 0x1C50; 0xA620; 0xA8D0; 0xA900; 0xA9D0;
   0xA9F0; 0xAA50; 0xABF0; 0xFF10; 0x104A0; 0x10D30; 0x11066; 0x110F0;
   0x11136; 0x111D0; 0x112F0; 0x11450; 0x114D0; 0x11650; 0x116C0; 0x11730;
   0x118E0; 0x11950; 0x11C50; 0x11D50; 0x11DA0; 0x16A60; 0x16AC0; 0x16B50;
   0x1D7CE; 0x1D7D8; 0x1D7E2; 0x1D7EC; 0x1D7F6; 0x1E140; 0x1E2F0; 0x1E950;
   0x1FBF0].

(** The decimal value of a digit outside ASCII. *)
Definition decimal (c : Z) : option Z :=
  (fun zero => c - zero)
    <$> find (fun zero => ((zero <=? c) && (c <=? zero + 9))%Z) decimal_zeros.

Fixpoint lstrip (space : Z -> bool) (l : list Z) : list Z :=
  match l with
  | c :: l' => if space c then lstrip space l' else l
  | [] => []
  end.

Definition strip (space : Z -> bool) (l : list Z) : list Z :=
  rev (lstrip space (rev (lstrip space l))).

(** [s.strip()]. *)
Definition str_strip (s : string) : string :=
  match code_points s with
  | Some l => text (strip is_space l)
  | None => s
  end.

(** ** The builtin [int] on strings

    [int(s)] in base 10, as CPython 3.11 computes it.  The text is first
    brought to ASCII: a code point below 127 stays, white space beyond
    becomes a blank, a decimal digit of any script becomes its ASCII
    digit, and anything else is refused.  The parser then skips the
    white space of C at both ends (the separators 28 to 31 are none),
    takes one sign and reads decimal digits in groups separated by single
    underscores.  More digits than the interpreter's limit, 4300 unless
    it was started with another, are refused.  Every refusal is a
    [ValueError], here [None]. *)

Definition to_ascii (c : Z) : option Z :=
  if (c <? 127)%Z then Some c
  else if is_space c then Some 32
  else Z.add 48 <$> decimal c.

Definition c_isspace (c : Z) : bool :=
  (((9 <=? c) && (c <=? 13)) || (c =? 32))%Z.

Definition digit_of (c : Z) : option Z :=
  if ((48 <=? c) && (c <=? 57))%Z then Some (c - 48) else None.

(** [after_digit] tells whether the previous character was a digit: an
    underscore is accepted only there, and the text must end there. *)
Fixpoint digits (acc : Z) (after_digit : bool) (l : list Z) : option Z :=
  match l with
  | [] => if after_digit then Some acc else None
  | c :: l' =>
      if (c =? 95)%Z
      then (if after_digit then digits acc false l' else None)
      else match digit_of c with
           | Some d => digits (10 * acc + d) true l'
           | None => None
           end
  end.

Definition max_str_digits : Z := 4300.

(** The digits after the sign; underscores do not count for the limit. *)
Definition literal (l : list Z) : option Z :=
  n ← digits 0 false l;
  if (Z.of_nat (length (filter (fun c => c <> 95) l)) <=? max_str_digits)%Z
  then Some n else None.

Definition py_int (s : string) : option Z :=
  l ← code_points s;
  l ← mapM to_ascii l;
  match strip c_isspace l with
  | c :: l' =>
      if (c =? 45)%Z then Z.opp <$> literal l'
      else if (c =? 43)%Z then literal l'
      else literal (c :: l')
  | [] => None
  end.

(** ** Binding the arguments of a call

    A signature lists the named parameters, each with its default if it
    has one, and says whether a [**kwargs] parameter collects the other
    keywords. *)

Record signature := {
  params : list (string * option pyval);
  var_keyword : bool
}.

Definition is_param (sig : signature) (k : string) : bool :=
  bool_decide (k ∈ (params sig).*1).

Fixpoint bind_positional (ps : list (string * option pyval)) (pos : list pyval)
  (acc : gmap string pyval) : result (gmap string pyval) :=
  match pos, ps with
  | [], _ => Ok acc
  | v :: pos', (name, _) :: ps' => bind_positional ps' pos' (<[name := v]> acc)
  | _ :: _, [] => Raise TypeError
  end.

Fixpoint bind_keywords (sig : signature) (kw : list (string * pyval))
  (acc : gmap string pyval) (extra : list (string * pyval))
  : result (gmap string pyval * list (string * pyval)) :=
  match kw with
  | [] => Ok (acc, extra)
  | (k, v) :: kw' =>
      if is_param sig k then
        match acc !! k with
        | Some _ => Raise TypeError
        | None => bind_keywords sig kw' (<[k := v]> acc) extra
        end
      else if var_keyword sig then
        if bool_decide (k ∈ extra.*1) then Raise TypeError
        else bind_keywords sig kw' acc (extra ++ [(k, v)])
      else Raise TypeError
  end.

Fixpoint fill_defaults (ps : list (string * option pyval))
  (acc : gmap string pyval) : result (gmap string pyval) :=
  match ps with
  | [] => Ok acc
  | (name, d) :: ps' =>
      match acc !! name, d with
      | Some _, _ => fill_defaults ps' acc
      | None, Some v => fill_defaults ps' (<[name := v]> acc)
      | None, None => Raise TypeError
      end
  end.

(** The local variables of the callee and the contents of its [kwargs],
    or [TypeError]: too many positional arguments, a parameter given
    twice, a keyword the callee does not take, a parameter left without a
    value. *)
Definition bind_args (sig : signature) (pos : list pyval)
  (kw : list (string * pyval))
  : result (gmap string pyval * list (string * pyval)) :=
  result_bind (bind_positional (params sig) pos ∅) (fun acc =>
  result_bind (bind_keywords sig kw acc []) (fun '(acc, extra) =>
  result_bind (fill_defaults (params sig) acc) (fun acc =>
  Ok (acc, extra)))).

(** The call of a method: the instance is bound to the first parameter,
    [self], before anything else, so a keyword [self] is a second value
    for that parameter, a [TypeError] whatever the other arguments are.
    The signature lists the parameters after [self]. *)
Definition bind_method_args (sig : signature) (pos : list pyval)
  (kw : list (string * pyval))
  : result (gmap string pyval * list (string * pyval)) :=
  if bool_decide ("self" ∈ kw.*1) then Raise TypeError
  else bind_args sig pos kw.

Definition arg (locals : gmap string pyval) (name : string) : pyval :=
  default PNone (locals !! name).

(** ** The world outside the interpreter *)

(** An entry of the file system: a directory, or a regular file with its
    content.  Paths are the keys as the program writes them; permissions
    and links are left out. *)
Inductive node :=
| Dir
| File (content : string).

(** What a feature client sends to the remote service. *)
Record request := {
  req_client : client_kind;
  req_api_key : pyval;
  req_input : pyval;
  req_options : list (string * pyval)
}.

(** The answer of the remote service to a request: the bytes of the
    processed image, the refusal of an option value, or no usable
    answer. *)
Inductive answer :=
| Image (data : string)
| Rejected
| Failed.

(** A line written by [print]; the pieces an f-string interpolates are
    the arguments. *)
Inductive line :=
| api_key_not_found
| input_dir_missing (d : string)
| batch_start
| skipping (p : string)
| processing (p : string) (i n : nat)
| completed (p : string)
| failed (p : string) (e : exn)
| batch_done
| status_header
| status_failed (e : exn)
| usage_header
| usage_failed (e : exn)
| item (k : string) (v : pyval).

Record world := {
  fs : gmap string node;
  (** the remote service *)
  service : request -> answer;
  (** the requests sent so far, oldest first *)
  sent : list request;
  stdout : list line;
  (** the attribute [__version__] of the package [miragic_sdk] *)
  version : string
}.

Definition with_fs (f : gmap string node) (w : world) : world :=
  {| fs := f; service := service w; sent := sent w; stdout := stdout w;
     version := version w |}.

Definition with_sent (l : list request) (w : world) : world :=
  {| fs := fs w; service := service w; sent := l; stdout := stdout w;
     version := version w |}.

Definition with_stdout (l : list line) (w : world) : world :=
  {| fs := fs w; service := service w; sent := sent w; stdout := l;
     version := version w |}.

(** ** Computations: a state over [world] with exceptions *)

Definition M (A : Type) : Type := world -> result A * world.

Definition ret {A} (a : A) : M A := fun w => (Ok a, w).

Definition raise {A} (e : exn) : M A := fun w => (Raise e, w).

Definition bind {A B} (c : M A) (k : A -> M B) : M B :=
  fun w =>
    match c w with
    | (Ok a, w') => k a w'
    | (Raise e, w') => (Raise e, w')
    end.

Definition lift {A} (r : result A) : M A := fun w => (r, w).

(** [try: c except Exception as e: h e]: exceptions outside [Exception]
    pass through the handler. *)
Definition try_except {A} (c : M A) (h : exn -> M A) : M A :=
  fun w =>
    match c w with
    | (Ok a, w') => (Ok a, w')
    | (Raise e, w') => if is_Exception e then h e w' else (Raise e, w')
    end.

(** A computation whose exceptions all derive from [Exception]: the
    handler of [try ... except Exception] gets every one of them. *)
Definition raises_only_Exception {A} (c : M A) : Prop :=
  forall w e w', c w = (Raise e, w') -> is_Exception e = true.

Definition print (l : line) : M unit :=
  fun w => (Ok tt, with_stdout (stdout w ++ [l]) w).

Definition sys_exit {A} (code : Z) : M A := raise (SystemExit code).

(** A [for] loop whose body ends normally or raises ([continue] is the
    normal end of the body). *)
Fixpoint for_each {A} (l : list A) (body : A -> M unit) : M unit :=
  match l with
  | [] => ret tt
  | x :: l' => bind (body x) (fun _ => for_each l' body)
  end.

(** ** The parts of [os] the code uses *)

Definition path_exists (p : string) : M bool :=
  fun w => (Ok (bool_decide (is_Some (fs w !! p))), w).

Definition path_isdir (f : gmap string node) (p : string) : bool :=
  match f !! p with
  | Some Dir => true
  | _ => false
  end.

(** [os.mkdir(p)] for a name in the working directory. *)
Definition mkdir (p : string) : M unit :=
  fun w =>
    match fs w !! p with
    | Some _ => (Raise FileExistsError, w)
    | None => (Ok tt, with_fs (<[p := Dir]> (fs w)) w)
    end.

(** [os.makedirs(p, exist_ok=exist_ok)] for a name without a directory
    part, as [input], [output] and [batch_output] are: no parent has to
    be made, and the error of [mkdir] is swallowed when [exist_ok] holds
    and [p] is a directory. *)
Definition makedirs (p : string) (exist_ok : bool) : M unit :=
  fun w =>
    match mkdir p w with
    | (Raise e, w') =>
        if negb exist_ok || negb (path_isdir (fs w') p)
        then (Raise e, w') else (Ok tt, w')
    | ok => ok
    end.

(** [os.path.join(a, b)] for a non-empty [a] that does not end in a
    slash and a relative [b]. *)
Definition path_join (a b : string) : string := a ++ "/" ++ b.

(** [str(n)] for a natural number. *)
Definition str_nat (n : nat) : string := NilZero.string_of_uint (Nat.to_uint n).

#[global] Instance M_ret : MRet M := @ret.
#[global] Instance M_bind : MBind M := fun A B k c => bind c k.

End Py.
Import Py.


(** ** The feature clients *)

Module FeatureClients.

(** Modelled from the spec: the modules [background_removal],
    [image_upscaler] and [blur_background] that [core.py] imports are
    missing.  The spec gives every feature client one capability: take an
    input image reference, an output path and options, fail on a missing
    input or an unsupported format before any remote call, perform the
    remote call, persist the result and return the output path.  The
    range of an option is not checked by the client: the spec leaves
    that to the remote service in the current implementation.  The
    method names and the order of their arguments are those of the calls
    in [core.py]. *)
Definition method_name (k : client_kind) : string :=
  match k with
  | BackgroundRemover => "remove_background"
  | ImageUpscaler => "upscale"
  | BlurBackground => "apply_blur"
  end.

(** Modelled from the spec: the parameters after [self] of the one
    method of each feature client, with the defaults the spec gives the
    operation. *)
Definition method_signature (k : client_kind) : signature :=
  match k with
  | BackgroundRemover =>
      {| params := [("input_path", None); ("output_path", None)];
         var_keyword := true |}
  | ImageUpscaler =>
      {| params := [("input_path", None); ("output_path", None);
                    ("scale_factor", Some (PInt 2))];
         var_keyword := true |}
  | BlurBackground =>
      {| params := [("input_path", None); ("output_path", None);
                    ("blur_strength", Some (PFloat (8 # 10)))];
         var_keyword := true |}
  end.

(** Modelled from the spec: the constructor of a feature client keeps the
    API key it is given. *)
Definition new (k : client_kind) (api_key : pyval) : pyval := PClient k api_key.

(** The options as they are sent: the named option of the operation, then
    the keywords. *)
Definition options_sent (k : client_kind) (locals : gmap string pyval)
  (kwargs : list (string * pyval)) : list (string * pyval) :=
  match k with
  | BackgroundRemover => kwargs
  | ImageUpscaler => ("scale_factor", arg locals "scale_factor") :: kwargs
  | BlurBackground => ("blur_strength", arg locals "blur_strength") :: kwargs
  end.

(** The image formats of [supported_formats] in [config.py]. *)
Definition supported_formats : list string :=
  [".jpg"; ".jpeg"; ".png"; ".bmp"; ".tiff"; ".webp"].

Definition has_supported_format (p : string) : bool :=
  existsb (fun e => bool_decide
             (list_ascii_of_string e `suffix_of` list_ascii_of_string p))
          supported_formats.

(** Modelled from the spec: an input given as a path must be an existing
    file (input-not-found) of a supported format (unsupported-format);
    raw bytes are taken as they are. *)
Definition check_input (input : pyval) : M unit :=
  match input with
  | PStr p =>
      fun w =>
        match fs w !! p with
        | Some (File _) =>
            if has_supported_format p then (Ok tt, w) else (Raise ValueError, w)
        | _ => (Raise FileNotFoundError, w)
        end
  | PBytes _ => ret tt
  | _ => raise TypeError
  end.

(** Modelled from the spec: the remote call.  The request is recorded.
    The service answers with the bytes of the result, refuses an option
    value (the invalid-option failure, a [ValueError]), or gives no
    usable answer (the remote-service failure). *)
Definition remote_call (r : request) : M string :=
  fun w =>
    let w' := with_sent (sent w ++ [r]) w in
    match service w r with
    | Image data => (Ok data, w')
    | Rejected => (Raise ValueError, w')
    | Failed => (Raise RemoteServiceError, w')
    end.

(** The result is persisted at the output path; a path that is no string
    cannot be opened. *)
Definition write_file (p : pyval) (data : string) : M unit :=
  match p with
  | PStr out => fun w => (Ok tt, with_fs (<[out := File data]> (fs w)) w)
  | _ => raise TypeError
  end.

(** Modelled from the spec: the body shared by the three operations, in
    the order the spec gives the steps. *)
Definition run (k : client_kind) (api_key : pyval)
  (locals : gmap string pyval) (kwargs : list (string * pyval)) : M pyval :=
  check_input (arg locals "input_path");;
  data ← remote_call {| req_client := k; req_api_key := api_key;
                        req_input := arg locals "input_path";
                        req_options := options_sent k locals kwargs |};
  write_file (arg locals "output_path") data;;
  ret (arg locals "output_path").

(** Attribute lookup on a value for a method call [v.name(...)]: only a
    feature client has a method, the one of its class. *)
Definition getattr (v : pyval) (name : string) : result (client_kind * pyval) :=
  match v with
  | PClient k api_key =>
      if String.eqb name (method_name k) then Ok (k, api_key)
      else Raise AttributeError
  | _ => Raise AttributeError
  end.

(** The call of the method of a client. *)
Definition call (k : client_kind) (api_key : pyval) (pos : list pyval)
  (kw : list (string * pyval)) : M pyval :=
  '(locals, kwargs) ← lift (bind_method_args (method_signature k) pos kw);
  run k api_key locals kwargs.

(** Modelled from the spec: no feature client is itself callable (the
    spec gives it the operation above and nothing else), and no other
    value of [pyval] is: calling one is a [TypeError]. *)
Definition call_value (v : pyval) (pos : list pyval)
  (kw : list (string * pyval)) : M pyval :=
  raise TypeError.

End FeatureClients.

(** ** [miragic_sdk/core.py]: the class [MiragicSDK] *)

Module MiragicSDK.

(** The functions defined in the body of the class. *)
Inductive method :=
| init
| remove_background_method
| upscale_image_method
| blur_background_method
| get_version_method.

(** The namespace of the class: the names its body binds.  All five are
    plain functions, so none is a data descriptor. *)
Definition class_dict : gmap string method :=
  list_to_map [("__init__", init);
               ("remove_background", remove_background_method);
               ("upscale_image", upscale_image_method);
               ("blur_background", blur_background_method);
               ("get_version", get_version_method)].

(** The parameters after [self] of each function; [self] itself is bound
    by [bind_method_args]. *)
Definition signature_of (m : method) : signature :=
  match m with
  | init =>
      {| params := [("api_key", Some PNone)]; var_keyword := false |}
  | remove_background_method =>
      {| params := [("input_path", None); ("output_path", None)];
         var_keyword := true |}
  | upscale_image_method =>
      {| params := [("input_path", None); ("output_path", None);
                    ("scale_factor", Some (PInt 2))];
         var_keyword := true |}
  | blur_background_method =>
      {| params := [("input_path", None); ("output_path", None);
                    ("blur_strength", Some (PFloat (8 # 10)))];
         var_keyword := true |}
  | get_version_method =>
      {| params := []; var_keyword := false |}
  end.

(** [__init__]: the four assignments to attributes of [self], in order,
    on the empty dictionary of a fresh instance.  An instance is its
    dictionary. *)
Definition __init__ (api_key : pyval) : gmap string pyval :=
  <["blur_background" := FeatureClients.new BlurBackground api_key]>
  (<["image_upscaler" := FeatureClients.new ImageUpscaler api_key]>
  (<["background_remover" := FeatureClients.new BackgroundRemover api_key]>
  (<["api_key" := api_key]> ∅))).

(** The call of the class with positional arguments [pos] and keywords [kw]: the arguments are bound to the
    parameters of [__init__], whose body then fills the instance. *)
Definition new (pos : list pyval) (kw : list (string * pyval))
  : result (gmap string pyval) :=
  result_bind (bind_method_args (signature_of init) pos kw) (fun '(locals, _) =>
  Ok (__init__ (arg locals "api_key"))).

(** What [self.name] evaluates to: a value stored in the instance, or a
    function of the class bound to the instance. *)
Inductive attribute :=
| Stored (v : pyval)
| Bound (m : method).

(** Attribute lookup [self.name] for the names the class and its
    instances bind themselves.  The class has no data descriptor, so the
    dictionary of the instance is searched first and the class second;
    the class defines no [__getattr__], so a name found in neither is an
    [AttributeError].  The special names that every object has from
    [object] and from the class statement ([__class__], [__dict__],
    [__doc__], [__repr__] and the like) are left out: the code never
    asks for one, and for them this lookup says nothing. *)
Definition getattribute (self : gmap string pyval) (name : string)
  : result attribute :=
  match self !! name with
  | Some v => Ok (Stored v)
  | None =>
      match class_dict !! name with
      | Some m => Ok (Bound m)
      | None => Raise AttributeError
      end
  end.

(** [self.name.meth(...)], the shape of the three delegations:
    [self.name] is looked up, then [meth] on the value found (a bound
    function has no such attribute), and the result is called. *)
Definition delegate (self : gmap string pyval) (name meth : string)
  (pos : list pyval) (kw : list (string * pyval)) : M pyval :=
  a ← lift (getattribute self name);
  match a with
  | Stored v =>
      '(k, api_key) ← lift (FeatureClients.getattr v meth);
      FeatureClients.call k api_key pos kw
  | Bound _ => raise AttributeError
  end.

Definition remove_background (self : gmap string pyval)
  (locals : gmap string pyval) (kwargs : list (string * pyval)) : M pyval :=
  delegate self "background_remover" "remove_background"
    [arg locals "input_path"; arg locals "output_path"] kwargs.

Definition upscale_image (self : gmap string pyval)
  (locals : gmap string pyval) (kwargs : list (string * pyval)) : M pyval :=
  delegate self "image_upscaler" "upscale"
    [arg locals "input_path"; arg locals "output_path";
     arg locals "scale_factor"] kwargs.

Definition blur_background (self : gmap string pyval)
  (locals : gmap string pyval) (kwargs : list (string * pyval)) : M pyval :=
  delegate self "blur_background" "apply_blur"
    [arg locals "input_path"; arg locals "output_path";
     arg locals "blur_strength"] kwargs.

Definition get_version (self : gmap string pyval) : M pyval :=
  fun w => (Ok (PStr (version w)), w).

(** The body of a function of the class, run on bound arguments.
    Calling [__init__] again on an instance returns [None]; the instance
    is not shared in the code modelled here, so its re-initialisation is
    not observed. *)
Definition body (m : method) (self : gmap string pyval)
  (locals : gmap string pyval) (kwargs : list (string * pyval)) : M pyval :=
  match m with
  | init => ret PNone
  | remove_background_method => remove_background self locals kwargs
  | upscale_image_method => upscale_image self locals kwargs
  | blur_background_method => blur_background self locals kwargs
  | get_version_method => get_version self
  end.

(** The call of a function of the class with [self] given, as in
    [MiragicSDK.upscale_image(sdk, ...)] or through a bound method. *)
Definition call_function (m : method) (self : gmap string pyval)
  (pos : list pyval) (kw : list (string * pyval)) : M pyval :=
  '(locals, kwargs) ← lift (bind_method_args (signature_of m) pos kw);
  body m self locals kwargs.

(** The call [sdk.name(...)] on an instance: the attribute is
    looked up first and what is found is called. *)
Definition call (sdk : gmap string pyval) (name : string)
  (pos : list pyval) (kw : list (string * pyval)) : M pyval :=
  a ← lift (getattribute sdk name);
  match a with
  | Bound m => call_function m sdk pos kw
  | Stored v => FeatureClients.call_value v pos kw
  end.

End MiragicSDK.

(** ** [examples/config.py]: the class [MiragicConfig] *)

Module MiragicConfig.

Record t := {
  api_key : option string;
  api_base_url : string;
  api_timeout : Z;
  default_blur_strength : Q;
  default_scale_factor : Z;
  default_threshold : Z;
  input_dir : string;
  output_dir : string;
  supported_formats : list string
}.

(** [os.getenv(k)] and [os.getenv(k, d)] on the environment of the
    process. *)
Definition getenv (env : gmap string string) (k : string) : option string :=
  env !! k.

Definition getenv_default (env : gmap string string) (k d : string) : string :=
  default d (env !! k).

(** The body of [__init__], with the builtin [int] as a parameter: the
    only step that can raise is [int] on the text of the timeout, a
    [ValueError]. *)
Definition init_with (int : string -> option Z) (env : gmap string string)
  : result t :=
  let key := getenv env "MIRAGIC_API_KEY" in
  let url := getenv_default env "MIRAGIC_API_BASE_URL" "https://api.miragic.com/v1" in
  match int (getenv_default env "MIRAGIC_API_TIMEOUT" "30") with
  | None => Raise ValueError
  | Some timeout =>
      Ok {| api_key := key;
            api_base_url := url;
            api_timeout := timeout;
            default_blur_strength := 8 # 10;
            default_scale_factor := 2;
            default_threshold := 128;
            input_dir := "input";
            output_dir := "output";
            supported_formats := FeatureClients.supported_formats |}
  end.

(** [__init__] under CPython 3.11. *)
Definition __init__ (env : gmap string string) : result t :=
  init_with py_int env.

(** [not self.api_key]: [None] and the empty string are false. *)
Definition api_key_missing (self : t) : bool :=
  match api_key self with
  | None => true
  | Some s => String.eqb s ""
  end.

Definition validate (self : t) : M bool :=
  if api_key_missing self then
    print api_key_not_found;; ret false
  else
    e ← path_exists (input_dir self);
    if negb e then
      print (input_dir_missing (input_dir self));; ret false
    else ret true.

Definition setup_directories (self : t) : M unit :=
  makedirs (input_dir self) true;;
  makedirs (output_dir self) true.

Definition key_value (k : option string) : pyval :=
  match k with
  | Some s => PStr s
  | None => PNone
  end.

Definition get_sdk_config (self : t) : list (string * pyval) :=
  [("api_key", key_value (api_key self));
   ("use_api", PBool true);
   ("api_base_url", PStr (api_base_url self))].

(** The body of the module ends with [config = MiragicConfig()]: importing
    the module builds the global instance. *)
Definition import_with (int : string -> option Z) (env : gmap string string)
  : result t :=
  init_with int env.

Definition import_module (env : gmap string string) : result t :=
  __init__ env.

End MiragicConfig.

(** ** [examples/api_usage_example.py]: the batch example *)

Module ApiUsageExample.

Definition API_KEY : string := "your_api_key_here".

Definition input_images : list string :=
  ["image1.jpg"; "image2.jpg"; "image3.jpg"].

(** The three calls inside the [try] of the loop, for the item at index
    [i], and the line printed after them. *)
Definition process (sdk : gmap string pyval) (output_dir : string)
  (i : nat) (input_image : string) : M unit :=
  MiragicSDK.call sdk "remove_background" []
    [("input_path", PStr input_image);
     ("output_path",
      PStr (path_join output_dir ("bg_removed_" ++ str_nat (i + 1) ++ ".png")))];;
  MiragicSDK.call sdk "blur_background" []
    [("input_path", PStr input_image);
     ("output_path",
      PStr (path_join output_dir ("blurred_" ++ str_nat (i + 1) ++ ".jpg")));
     ("blur_strength", PFloat (6 # 10))];;
  MiragicSDK.call sdk "upscale_image" []
    [("input_path", PStr input_image);
     ("output_path",
      PStr (path_join output_dir ("upscaled_" ++ str_nat (i + 1) ++ ".jpg")));
     ("scale_factor", PInt 2)];;
  print (completed input_image).

(** One turn of the loop over [enumerate(input_images)]. *)
Definition turn (sdk : gmap string pyval) (output_dir : string) (n : nat)
  (item : nat * string) : M unit :=
  let '(i, input_image) := item in
  e ← path_exists input_image;
  if negb e then print (skipping input_image)
  else
    print (processing input_image (i + 1) n);;
    try_except (process sdk output_dir i input_image)
               (fun e => print (failed input_image e)).

Definition enumerate {A} (l : list A) : list (nat * A) :=
  zip (seq 0 (length l)) l.

(** The function from the creation of the output directory on. *)
Definition batch_loop (sdk : gmap string pyval) (images : list string) : M unit :=
  let output_dir := "batch_output" in
  makedirs output_dir true;;
  print batch_start;;
  for_each (enumerate images) (turn sdk output_dir (length images));;
  print batch_done.

Definition batch_processing_example : M unit :=
  sdk ← lift (MiragicSDK.new [] [("api_key", PStr API_KEY);
                                 ("use_api", PBool true)]);
  batch_loop sdk input_images.

End ApiUsageExample.

(** ** [examples/cli_api_example.py]: the handlers of the command line *)

Module CliApiExample.

Definition setup_sdk (config : MiragicConfig.t) : M (gmap string pyval) :=
  ok ← MiragicConfig.validate config;
  if negb ok then sys_exit 1
  else
    MiragicConfig.setup_directories config;;
    lift (MiragicSDK.new [] (MiragicConfig.get_sdk_config config)).

(** [for key, value in v.items(): print(...)]: only a dictionary has
    [items]. *)
Definition print_items (v : pyval) : M unit :=
  match v with
  | PDict items => for_each items (fun kv => print (item (fst kv) (snd kv)))
  | _ => raise AttributeError
  end.

(** The [try] statement of [status_command], on the facade that
    [setup_sdk] returned. *)
Definition status_try (sdk : gmap string pyval) : M unit :=
  try_except
    (status ← MiragicSDK.call sdk "get_api_status" [] [];
     print status_header;;
     print_items status)
    (fun e => print (status_failed e);; sys_exit 1).

Definition status_command (config : MiragicConfig.t) : M unit :=
  sdk ← setup_sdk config;
  status_try sdk.

(** The [try] statement of [usage_command]. *)
Definition usage_try (sdk : gmap string pyval) : M unit :=
  try_except
    (usage ← MiragicSDK.call sdk "get_usage_stats" [] [];
     print usage_header;;
     print_items usage)
    (fun e => print (usage_failed e);; sys_exit 1).

Definition usage_command (config : MiragicConfig.t) : M unit :=
  sdk ← setup_sdk config;
  usage_try sdk.

End CliApiExample.

(** ** Sample states *)

Module Sample.

(** A service that answers every request with the same bytes. *)
Definition answering : request -> answer := fun _ => Image "bytes".


(** The working directory of the batch example with its first and third
    input present and its second missing. *)
Definition second_missing : world :=
  {| fs := <["image1.jpg" := File "one"]> (<["image3.jpg" := File "three"]> ∅);
     service := answering;
     sent := [];
     stdout := [];
     version := "1.0.0" |}.

(** A working directory in which a regular file has the name of the
    input directory. *)
Definition input_is_a_file : world :=
  {| fs := <["input" := File ""]> ∅;
     service := answering;
     sent := [];
     stdout := [];
     version := "1.0.0" |}.


Definition empty_directory : world :=
  {| fs := ∅;
     service := answering;
     sent := [];
     stdout := [];
     version := "1.0.0" |}.

(** The configuration built in the empty environment. *)
Definition default_config : MiragicConfig.t :=
  {| MiragicConfig.api_key := None;
     MiragicConfig.api_base_url := "https://api.miragic.com/v1";
     MiragicConfig.api_timeout := 30;
     MiragicConfig.default_blur_strength := 8 # 10;
     MiragicConfig.default_scale_factor := 2;
     MiragicConfig.default_threshold := 128;
     MiragicConfig.input_dir := "input";
     MiragicConfig.output_dir := "output";
     MiragicConfig.supported_formats := FeatureClients.supported_formats |}.

(** The configuration built in an environment that holds the API key
    [k] and nothing else. *)
Definition keyed_config : MiragicConfig.t :=
  {| MiragicConfig.api_key := Some "k";
     MiragicConfig.api_base_url := "https://api.miragic.com/v1";
     MiragicConfig.api_timeout := 30;
     MiragicConfig.default_blur_strength := 8 # 10;
     MiragicConfig.default_scale_factor := 2;
     MiragicConfig.default_threshold := 128;
     MiragicConfig.input_dir := "input";
     MiragicConfig.output_dir := "output";
     MiragicConfig.supported_formats := FeatureClients.supported_formats |}.

End Sample.

(** ** [scripts/]: the build, upload and development-setup scripts *)

Module Scripts.

(** The newline character of the message texts. *)
Definition nl : string := String (ascii_of_nat 10) EmptyString.

(** An entry of the project directory: a directory with the names and
    sizes of its entries, in the order the system lists them, or a
    regular file with its size. *)
Inductive node :=
| Directory (listing : list (string * Z))
| Regular (size : Z).

(** What [subprocess.run] gets back from a command: its return code,
    the text it wrote to its two streams, and the project directory as
    the command leaves it. *)
Record completed := {
  returncode : Z;
  captured_stdout : string;
  captured_stderr : string;
  cwd_after : list (string * node)
}.

(** What is written to the terminal: the text of a [print], the prompt
    of an [input], or the line of [verify_package] for a file of [dist]
    with its size in bytes (the script prints it in KB with one
    decimal). *)
Inductive printed :=
| say (s : string)
| prompt (s : string)
| dist_file (name : string) (size : Z).

Record state := {
  cwd : list (string * node);
  shell : string -> list (string * node) -> completed;
  (** the commands run so far with their return codes, oldest first *)
  ran : list (string * Z);
  (** the lines the user will type, as text *)
  stdin : list string;
  out : list printed
}.

Definition with_cwd (l : list (string * node)) (st : state) : state :=
  {| cwd := l; shell := shell st; ran := ran st; stdin := stdin st; out := out st |}.

Definition with_out (l : list printed) (st : state) : state :=
  {| cwd := cwd st; shell := shell st; ran := ran st; stdin := stdin st; out := l |}.

(** The ways a script stops early: [sys.exit] and the [EOFError] of
    [input] at the end of the input. *)
Inductive stop :=
| Exit (code : Z)
| EOFError.

Inductive outcome (A : Type) :=
| Done (a : A)
| Stop (s : stop).
Arguments Done {A} a.
Arguments Stop {A} s.

Definition Script (A : Type) : Type := state -> outcome A * state.

Definition script_ret {A} (a : A) : Script A := fun st => (Done a, st).

Definition script_bind {A B} (c : Script A) (k : A -> Script B) : Script B :=
  fun st =>
    match c st with
    | (Done a, st') => k a st'
    | (Stop s, st') => (Stop s, st')
    end.

#[global] Instance Script_ret : MRet Script := @script_ret.
#[global] Instance Script_bind : MBind Script := fun A B k c => script_bind c k.

Definition status {A} (r : outcome A) : Z :=
  match r with
  | Done _ => 0
  | Stop (Exit c) => c
  | Stop EOFError => 1
  end.

Definition print (s : string) : Script unit :=
  fun st => (Done tt, with_out (out st ++ [say s]) st).

Definition sys_exit {A} (code : Z) : Script A :=
  fun st => (Stop (Exit code), st).

(** [input(p)]: the prompt is written, then a line is read. *)
Definition input (p : string) : Script string :=
  fun st =>
    match stdin st with
    | [] => (Stop EOFError, with_out (out st ++ [prompt p]) st)
    | l :: rest =>
        (Done l,
         {| cwd := cwd st; shell := shell st; ran := ran st; stdin := rest;
            out := out st ++ [prompt p] |})
    end.

Fixpoint each {A} (l : list A) (body : A -> Script unit) : Script unit :=
  match l with
  | [] => mret tt
  | x :: l' => body x;; each l' body
  end.

(** *** Paths in the project directory *)

Definition entry (name : string) (l : list (string * node)) : option node :=
  snd <$> find (fun e => String.eqb (fst e) name) l.

(** [Path(name).exists()] *)
Definition path_exists (name : string) : Script bool :=
  fun st => (Done (bool_decide (is_Some (entry name (cwd st)))), st).

(** [shutil.rmtree] of a directory and [unlink] of a file: the entry is
    gone from the project directory. *)
Definition remove (name : string) : Script unit :=
  fun st => (Done tt, with_cwd (filter (fun e => e.1 <> name) (cwd st)) st).

Definition ends_with (suffix name : string) : bool :=
  bool_decide (list_ascii_of_string suffix `suffix_of` list_ascii_of_string name).

(** The patterns the scripts pass to [glob]: a plain name, or a star
    followed by a suffix. *)
Inductive pattern :=
| Exact (name : string)
| Star (suffix : string).

(** [Path('.').glob(p)]: the names in the project directory that match,
    in listing order. *)
Definition glob (p : pattern) (l : list (string * node)) : list string :=
  match p with
  | Exact name => if bool_decide (is_Some (entry name l)) then [name] else []
  | Star suffix => (filter (fun e => ends_with suffix e.1 = true) l).*1
  end.

(** [list(Path('dist').glob('*'))]: the entries of [dist] when it is a
    directory, nothing otherwise. *)
Definition dist_files (l : list (string * node)) : list (string * Z) :=
  match entry "dist" l with
  | Some (Directory listing) => listing
  | _ => []
  end.

(** *** [run_command], the same in the three scripts *)

(** [subprocess.run(command, shell=True, check=True, ...)] as far as the
    command itself goes: it is run in the project directory, which it may
    change, and recorded with its return code. *)
Definition subprocess_run (command : string) : Script completed :=
  fun st =>
    let c := shell st command (cwd st) in
    (Done c,
     {| cwd := cwd_after c; shell := shell st;
        ran := ran st ++ [(command, returncode c)];
        stdin := stdin st; out := out st |}).

(** With [check=True] a return code other than 0 raises
    [CalledProcessError], which the [except] clause turns into two
    printed lines and [False]. *)
Definition run_command (command description : string) : Script bool :=
  print (nl ++ "🔄 " ++ description ++ "...");;
  result ← subprocess_run command;
  if (returncode result =? 0)%Z then
    print ("✅ " ++ description ++ " completed successfully");;
    (if String.eqb (captured_stdout result) "" then mret tt
     else print (captured_stdout result));;
    mret true
  else
    print ("❌ " ++ description ++ " failed");;
    print ("Error: " ++ captured_stderr result);;
    mret false.

(** The loop [for command, description in commands] with its early
    [return False]. *)
Fixpoint run_all (commands : list (string * string)) : Script bool :=
  match commands with
  | [] => mret true
  | (command, description) :: rest =>
      ok ← run_command command description;
      if negb ok then mret false else run_all rest
  end.

(** *** [scripts/build.py] *)

Module Build.

Definition dirs_to_clean : list pattern :=
  [Exact "build"; Exact "dist"; Star ".egg-info"].

(** The body of the inner loop for one path that [glob] yielded. *)
Definition clean_path (path : string) : Script unit :=
  fun st =>
    match entry path (cwd st) with
    | Some (Directory _) => (remove path;; print ("   Removed " ++ path)) st
    | Some (Regular _) => (remove path;; print ("   Removed " ++ path)) st
    | None => (Done tt, st)
    end.

Definition clean_pattern (p : pattern) : Script unit :=
  fun st => each (glob p (cwd st)) clean_path st.

Definition clean_build_dirs : Script unit :=
  print (nl ++ "🧹 Cleaning previous build artifacts...");;
  each dirs_to_clean clean_pattern.

Definition build_package : Script bool :=
  run_all [("python -m pip install --upgrade build", "Installing/upgrading build tools");
           ("python -m build", "Building package")].

Definition verify_package : Script bool :=
  print (nl ++ "🔍 Verifying package...");;
  e ← path_exists "dist";
  if negb e then
    print "❌ dist directory not found";; mret false
  else
    fun st =>
      let files := dist_files (cwd st) in
      match files with
      | [] => (print "❌ No files found in dist directory";; mret false) st
      | _ =>
          (print ("✅ Found " ++ str_nat (length files) ++ " files in dist directory:");;
           each files (fun file =>
             fun st' => (Done tt, with_out (out st' ++ [dist_file file.1 file.2]) st'));;
           mret true) st
      end.

Definition main : Script unit :=
  print "🚀 Starting Miragic SDK build process...";;
  e ← path_exists "setup.py";
  if negb e then
    print "❌ setup.py not found. Please run this script from the project root.";; sys_exit 1
  else
    clean_build_dirs;;
    ok ← build_package;
    if negb ok then
      print (nl ++ "❌ Build failed!");; sys_exit 1
    else
      ok ← verify_package;
      if negb ok then
        print (nl ++ "❌ Package verification failed!");; sys_exit 1
      else
        print (nl ++ "🎉 Build completed successfully!");;
        print (nl ++ "Next steps:");;
        print "1. Test the package: python -m pip install dist/miragic_sdk-*.whl";;
        print "2. Upload to PyPI: python scripts/upload.py".

End Build.

(** *** [scripts/upload.py] *)

Module Upload.

Definition check_dist_files : Script bool :=
  print (nl ++ "🔍 Checking distribution files...");;
  e ← path_exists "dist";
  if negb e then
    print "❌ dist directory not found. Please run build.py first.";; mret false
  else
    fun st =>
      let files := dist_files (cwd st) in
      match files with
      | [] => (print "❌ No files found in dist directory. Please run build.py first.";; mret false) st
      | _ =>
          (print ("✅ Found " ++ str_nat (length files) ++ " distribution files:");;
           each files (fun file => print ("   - " ++ file.1));;
           mret true) st
      end.

Definition testpypi_command : string :=
  "python -m twine upload --repository testpypi dist/*".

Definition pypi_command : string := "python -m twine upload dist/*".

Definition upload_to_testpypi : Script bool :=
  print (nl ++ "📤 Uploading to TestPyPI...");;
  ok ← run_command testpypi_command "Uploading to TestPyPI";
  if negb ok then mret false
  else
    print (nl ++ "✅ Upload to TestPyPI completed!");;
    print (nl ++ "You can test the package with:");;
    print "pip install --index-url https://test.pypi.org/simple/ miragic-sdk";;
    mret true.

Definition upload_to_pypi : Script bool :=
  print (nl ++ "📤 Uploading to PyPI...");;
  ok ← run_command pypi_command "Uploading to PyPI";
  if negb ok then mret false
  else
    print (nl ++ "✅ Upload to PyPI completed!");;
    print (nl ++ "Package is now available at:");;
    print "https://pypi.org/project/miragic-sdk/";;
    mret true.

(** ["=" * 50] *)
Definition rule : string := string_of_list_ascii (replicate 50 "="%char).

Definition main : Script unit :=
  print "🚀 Starting Miragic SDK upload process...";;
  e ← path_exists "pyproject.toml";
  if negb e then
    print "❌ pyproject.toml not found. Please run this script from the project root.";; sys_exit 1
  else
    ok ← check_dist_files;
    if negb ok then sys_exit 1
    else
      print (nl ++ "📋 Upload options:");;
      print "1. TestPyPI (recommended for testing)";;
      print "2. PyPI (production release)";;
      print "3. Both (TestPyPI first, then PyPI)";;
      answer ← input (nl ++ "Enter your choice (1/2/3): ");
      let choice := str_strip answer in
      (if String.eqb choice "1" then
         ok ← upload_to_testpypi;
         if negb ok then sys_exit 1 else mret tt
       else if String.eqb choice "2" then
         ok ← upload_to_pypi;
         if negb ok then sys_exit 1 else mret tt
       else if String.eqb choice "3" then
         ok ← upload_to_testpypi;
         if negb ok then sys_exit 1
         else
           print (nl ++ rule);;
           input "Press Enter to continue with PyPI upload...";;
           ok ← upload_to_pypi;
           if negb ok then sys_exit 1 else mret tt
       else
         print "❌ Invalid choice. Please run the script again.";; sys_exit 1);;
      print (nl ++ "🎉 Upload process completed successfully!").

End Upload.

(** *** [scripts/install_dev.py] *)

Module InstallDev.

Definition install_dev_dependencies : Script bool :=
  run_all [("python -m pip install --upgrade pip", "Upgrading pip");
           ("python -m pip install -r requirements-dev.txt",
            "Installing development dependencies")].

Definition install_package_editable : Script bool :=
  run_command "python -m pip install -e ." "Installing package in editable mode".

Definition run_tests : Script bool :=
  run_command "python -m pytest tests/ -v" "Running tests".

Definition main : Script unit :=
  print "🚀 Setting up Miragic SDK for development...";;
  e ← path_exists "setup.py";
  if negb e then
    print "❌ setup.py not found. Please run this script from the project root.";; sys_exit 1
  else
    ok ← install_dev_dependencies;
    if negb ok then
      print (nl ++ "❌ Failed to install development dependencies!");; sys_exit 1
    else
      ok ← install_package_editable;
      if negb ok then
        print (nl ++ "❌ Failed to install package in editable mode!");; sys_exit 1
      else
        t ← path_exists "tests";
        (if (t : bool) then
           ok ← run_tests;
           if negb ok then print (nl ++ "⚠️  Tests failed, but development setup is complete.")
           else print (nl ++ "✅ All tests passed!")
         else mret tt);;
        print (nl ++ "🎉 Development setup completed successfully!");;
        print (nl ++ "You can now:");;
        print "1. Make changes to the code";;
        print "2. Run tests: python -m pytest tests/";;
        print "3. Format code: black miragic_sdk/";;
        print "4. Lint code: flake8 miragic_sdk/";;
        print "5. Build package: python scripts/build.py".

End InstallDev.

End Scripts.

(** ** Notions used to state further properties *)

Module Notions.

(** The parameter names of the three operations of the facade, [self]
    among them: the names a keyword option cannot have. *)
Definition operation_parameters : list string :=
  ["self"; "input_path"; "output_path"; "scale_factor"; "blur_strength"].

(** A computation that prints nothing. *)
Definition keeps_stdout {A} (c : M A) : Prop :=
  forall w r w', c w = (r, w') -> stdout w' = stdout w.

(** The lines one turn of the batch loop can print for the input at
    index [i] of [n]: it is skipped, or announced and then completed or
    failed with an exception that derives from [Exception]. *)
Inductive turn_lines (i n : nat) (input_image : string) : list line -> Prop :=
| turn_skipped :
    turn_lines i n input_image [skipping input_image]
| turn_completed :
    turn_lines i n input_image
      [processing input_image (i + 1) n; completed input_image]
| turn_failed e :
    is_Exception e = true ->
    turn_lines i n input_image
      [processing input_image (i + 1) n; failed input_image e].

(** A name that [clean_build_dirs] looks for: [build], [dist], or a name
    that ends in [.egg-info]. *)
Definition artifact (name : string) : Prop :=
  name = "build" \/ name = "dist" \/ Scripts.ends_with ".egg-info" name = true.

#[global] Instance artifact_dec name : Decision (artifact name).
Proof. unfold artifact. apply _. Defined.

(** The names a pattern of [glob] matches. *)
Definition matches (p : Scripts.pattern) (name : string) : Prop :=
  match p with
  | Scripts.Exact n => name = n
  | Scripts.Star suffix => Scripts.ends_with suffix name = true
  end.

#[global] Instance matches_dec p name : Decision (matches p name).
Proof. destruct p; simpl; apply _. Defined.

(** A step of a script that runs no command, reads no input and leaves
    the project directory alone: at most it prints. *)
Definition only_prints (st st' : Scripts.state) : Prop :=
  Scripts.cwd st' = Scripts.cwd st /\ Scripts.shell st' = Scripts.shell st /\
  Scripts.ran st' = Scripts.ran st /\ Scripts.stdin st' = Scripts.stdin st.

(** The prompts among what a script wrote to the terminal, in order. *)
Definition prompts (l : list Scripts.printed) : list string :=
  omap (fun p => match p with Scripts.prompt s => Some s | _ => None end) l.

(** A step of a script that asks nothing: what it writes holds no
    prompt. *)
Definition asks_nothing {A} (c : Scripts.Script A) : Prop :=
  forall st, exists o,
    Scripts.out (snd (c st)) = (Scripts.out st ++ o)%list /\ prompts o = [].

End Notions.
Import Notions.

(** * Properties *)

Ltac unfold_M :=
  unfold mbind, M_bind, mret, M_ret, bind, ret, raise, lift, sys_exit,
    try_except, print in *.

(** ** The builtin [int] *)

Example py_int_30 : py_int "30" = Some 30.
Proof. reflexivity. Qed.

Example py_int_forms :
  py_int " -1_000 " = Some (-1000) /\ py_int "+7" = Some 7 /\
  py_int "" = None /\ py_int "30s" = None /\ py_int "1__0" = None /\
  py_int "_1" = None /\ py_int "1_" = None /\ py_int "- 1" = None /\
  py_int "3.5" = None.
Proof. repeat split; reflexivity. Qed.

(** Digits and white space outside ASCII count; the separators 28 to 31,
    which [str.strip] removes, do not. *)
Example py_int_unicode :
  py_int "٣٠" = Some 30 /\ py_int "１２" = Some 12 /\
  py_int (text [0xA0; 0x33; 0x30; 0x3000]) = Some 30 /\
  py_int (text [0x1C; 0x33; 0x30]) = None /\
  str_strip (text [0x1C; 0x33; 0x30]) = "30" /\
  str_strip (text [0xA0; 0x32; 0x3000]) = "2" /\
  py_int (text [0xB2]) = None.
Proof. repeat split; reflexivity. Qed.

(** The limit on the number of digits. *)
Example py_int_limit :
  is_Some (py_int (text (replicate 4300 0x39))) /\
  py_int (text (replicate 4301 0x39)) = None /\
  py_int (text (replicate 4301 0x30)) = None.
Proof. repeat split; vm_compute; eauto. Qed.

(** ** Binding the arguments of a method *)


(** ** Construction of the facade *)

(** The constructor takes its API key by position or by keyword, or
    leaves it to the default [None]. *)
Lemma new_api_key (api_key : pyval) :
  MiragicSDK.new [] [("api_key", api_key)] = Ok (MiragicSDK.__init__ api_key) /\
  MiragicSDK.new [api_key] [] = Ok (MiragicSDK.__init__ api_key) /\
  MiragicSDK.new [] [] = Ok (MiragicSDK.__init__ PNone).
Proof. repeat split; reflexivity. Qed.

(** Every facade the constructor returns is the one [__init__] fills for
    some API key. *)
Lemma new_inv pos kw sdk :
  MiragicSDK.new pos kw = Ok sdk -> exists api_key, sdk = MiragicSDK.__init__ api_key.
Proof.
  unfold MiragicSDK.new, result_bind.
  destruct (bind_method_args _ pos kw) as [[locals extra]|e]; [|discriminate].
  intros [= <-]. eauto.
Qed.

(** C1, on the code: the constructor has the one parameter [api_key] and
    no [**kwargs], so the call with the keywords [api_key], [use_api] and
    [api_base_url] that the examples and [setup_sdk] make raises
    [TypeError] for all values of the three, and so does the call of the
    batch example with [api_key] and [use_api]; no facade is built. *)
Theorem new_rejects_use_api (api_key use_api api_base_url : pyval) :
  MiragicSDK.new [] [("api_key", api_key); ("use_api", use_api);
                     ("api_base_url", api_base_url)] = Raise TypeError /\
  MiragicSDK.new [] [("api_key", api_key); ("use_api", use_api)] = Raise TypeError /\
  forall config : MiragicConfig.t,
    MiragicSDK.new [] (MiragicConfig.get_sdk_config config) = Raise TypeError.
Proof. repeat split; intros; reflexivity. Qed.

(** ** Attribute lookup on the facade *)

Lemma class_dict_inv name m :
  MiragicSDK.class_dict !! name = Some m ->
  (name, m) ∈ [("__init__", MiragicSDK.init);
               ("remove_background", MiragicSDK.remove_background_method);
               ("upscale_image", MiragicSDK.upscale_image_method);
               ("blur_background", MiragicSDK.blur_background_method);
               ("get_version", MiragicSDK.get_version_method)].
Proof. unfold MiragicSDK.class_dict. apply elem_of_list_to_map_2. Qed.

Lemma class_dict_blur_background name :
  MiragicSDK.class_dict !! name = Some MiragicSDK.blur_background_method ->
  name = "blur_background".
Proof.
  intros H%class_dict_inv.
  repeat (apply elem_of_cons in H as [H|H]; [congruence|]).
  by apply elem_of_nil in H.
Qed.

(** C3: on every facade the constructor returns, the class does define
    a function [blur_background], but the lookup of [blur_background] on
    the instance yields the [BlurBackground] client stored by [__init__],
    and no name at all is resolved to the function of the class. *)
Theorem blur_background_attribute_shadows_method pos kw sdk :
  MiragicSDK.new pos kw = Ok sdk ->
  MiragicSDK.class_dict !! "blur_background"
    = Some MiragicSDK.blur_background_method /\
  (exists api_key,
     sdk !! "api_key" = Some api_key /\
     MiragicSDK.getattribute sdk "blur_background"
       = Ok (MiragicSDK.Stored (PClient BlurBackground api_key))) /\
  forall name,
    MiragicSDK.getattribute sdk name
      <> Ok (MiragicSDK.Bound MiragicSDK.blur_background_method).
Proof.
  intros [api_key ->]%new_inv. split; [reflexivity|]. split.
  - exists api_key. split; reflexivity.
  - intros name. unfold MiragicSDK.getattribute.
    destruct (MiragicSDK.__init__ api_key !! name) as [v|] eqn:Hi; [discriminate|].
    destruct (MiragicSDK.class_dict !! name) as [m|] eqn:Hc; [|discriminate].
    intros [= ->]. apply class_dict_blur_background in Hc as ->.
    discriminate Hi.
Qed.

Lemma blur_background_attribute_shadows_method_witness :
  let sdk := MiragicSDK.__init__ (PStr "k") in
  MiragicSDK.new [] [("api_key", PStr "k")] = Ok sdk /\
  (MiragicSDK.class_dict !! "blur_background"
     = Some MiragicSDK.blur_background_method /\
   (exists api_key,
      sdk !! "api_key" = Some api_key /\
      MiragicSDK.getattribute sdk "blur_background"
        = Ok (MiragicSDK.Stored (PClient BlurBackground api_key))) /\
   forall name,
     MiragicSDK.getattribute sdk name
       <> Ok (MiragicSDK.Bound MiragicSDK.blur_background_method)).
Proof.
  split; [reflexivity|].
  apply (blur_background_attribute_shadows_method [] [("api_key", PStr "k")]).
  reflexivity.
Defined.

(** ** The configuration *)

(** Whatever [int] does, the constructor fails exactly when [int]
    refuses the text of the timeout, and then with [ValueError]. *)
Lemma init_with_raises int env e :
  MiragicConfig.init_with int env = Raise e <->
  e = ValueError /\
  int (MiragicConfig.getenv_default env "MIRAGIC_API_TIMEOUT" "30") = None.
Proof.
  unfold MiragicConfig.init_with.
  destruct (int _) as [z|].
  - split; [discriminate|]. by intros [_ ?].
  - split; [by intros [= <-]|by intros [-> _]].
Qed.

Lemma init_with_fields int env cfg :
  MiragicConfig.init_with int env = Ok cfg ->
  MiragicConfig.api_key cfg = env !! "MIRAGIC_API_KEY" /\
  MiragicConfig.input_dir cfg = "input" /\
  MiragicConfig.output_dir cfg = "output".
Proof.
  unfold MiragicConfig.init_with.
  destruct (int _); [|discriminate]. by intros [= <-].
Qed.

Lemma config_init_api_key env cfg :
  MiragicConfig.__init__ env = Ok cfg ->
  MiragicConfig.api_key cfg = env !! "MIRAGIC_API_KEY" /\
  MiragicConfig.input_dir cfg = "input" /\
  MiragicConfig.output_dir cfg = "output".
Proof. apply init_with_fields. Qed.

Lemma validate_total cfg w :
  exists b : bool, MiragicConfig.validate cfg w
            = (Ok b, if b then w
                     else with_stdout
                            (stdout w ++
                               [if MiragicConfig.api_key_missing cfg
                                then api_key_not_found
                                else input_dir_missing (MiragicConfig.input_dir cfg)])
                            w).
Proof.
  unfold MiragicConfig.validate.
  destruct (MiragicConfig.api_key_missing cfg); [by exists false|].
  unfold_M. unfold path_exists.
  destruct (bool_decide _); [by exists true | by exists false].
Qed.

Lemma api_key_missing_spec cfg :
  MiragicConfig.api_key_missing cfg = true <->
  MiragicConfig.api_key cfg = None \/ MiragicConfig.api_key cfg = Some "".
Proof.
  unfold MiragicConfig.api_key_missing.
  destruct (MiragicConfig.api_key cfg) as [s|]; [|naive_solver].
  destruct (String.eqb_spec s "") as [->|Hne].
  - split; [by right | done].
  - split; [done | intros [|[=]]; done].
Qed.

(** The three results of [validate], by cases on what it reads. *)
Lemma validate_cases cfg w :
  MiragicConfig.validate cfg w =
  if MiragicConfig.api_key_missing cfg
  then (Ok false, with_stdout (stdout w ++ [api_key_not_found]) w)
  else match fs w !! MiragicConfig.input_dir cfg with
       | None =>
           (Ok false,
            with_stdout
              (stdout w ++ [input_dir_missing (MiragicConfig.input_dir cfg)]) w)
       | Some _ => (Ok true, w)
       end.
Proof.
  unfold MiragicConfig.validate.
  destruct (MiragicConfig.api_key_missing cfg); [done|].
  unfold_M. unfold path_exists.
  by destruct (fs w !! MiragicConfig.input_dir cfg).
Qed.

(** An entry of any kind at the path of the input directory satisfies
    [validate]: [os.path.exists] does not ask for a directory. *)
Example validate_input_is_a_file (w : world) (cfg : MiragicConfig.t) :
  MiragicConfig.api_key cfg = Some "k" ->
  fs w !! MiragicConfig.input_dir cfg = Some (File "") ->
  MiragicConfig.validate cfg w = (Ok true, w).
Proof.
  intros Hk Hd. unfold MiragicConfig.validate, MiragicConfig.api_key_missing.
  rewrite Hk. simpl. unfold_M. unfold path_exists. rewrite Hd.
  by rewrite bool_decide_eq_true_2 by eauto.
Qed.

(** C5, on the code: with an API key in the environment, and a regular
    file where the input directory should be, no input directory exists
    and [validate] returns [True] and prints nothing. *)
Lemma validate_accepts_a_file_named_input :
  MiragicConfig.__init__ (<["MIRAGIC_API_KEY" := "k"]> ∅)
  = Ok Sample.keyed_config /\
  MiragicConfig.api_key Sample.keyed_config = Some "k" /\
  MiragicConfig.input_dir Sample.keyed_config = "input" /\
  fs Sample.input_is_a_file !! "input" = Some (File "") /\
  path_isdir (fs Sample.input_is_a_file) "input" = false /\
  MiragicConfig.validate Sample.keyed_config Sample.input_is_a_file
  = (Ok true, Sample.input_is_a_file).
Proof. repeat split; reflexivity. Qed.

(** C5, amended: [validate] never raises and has three results.  It
    returns [False] after printing the line about the API key exactly
    when the key is [None] or empty; it returns [False] after printing
    the line about the input directory exactly when there is a key and
    nothing exists at the path of the input directory; it returns [True]
    and prints nothing exactly when there is a key and something exists
    at that path, a directory or a regular file. *)
Theorem validate_outcome (cfg : MiragicConfig.t) (w : world) :
  let r := MiragicConfig.validate cfg w in
  let no_key :=
    MiragicConfig.api_key cfg = None \/ MiragicConfig.api_key cfg = Some "" in
  let d := MiragicConfig.input_dir cfg in
  (r = (Ok true, w) \/
   r = (Ok false, with_stdout (stdout w ++ [api_key_not_found]) w) \/
   r = (Ok false, with_stdout (stdout w ++ [input_dir_missing d]) w)) /\
  (r = (Ok false, with_stdout (stdout w ++ [api_key_not_found]) w)
   <-> no_key) /\
  (r = (Ok false, with_stdout (stdout w ++ [input_dir_missing d]) w)
   <-> ~ no_key /\ fs w !! d = None) /\
  (r = (Ok true, w)
   <-> ~ no_key /\ exists n, fs w !! d = Some n) /\
  (fst r = Ok false <-> no_key \/ fs w !! d = None) /\
  (fst r = Ok true <-> ~ (no_key \/ fs w !! d = None)).
Proof.
  intros r no_key d. subst r no_key d.
  rewrite <- api_key_missing_spec, validate_cases.
  assert (forall l1 l2 : line,
            (@Ok bool false, with_stdout (stdout w ++ [l1]) w)
            = (Ok false, with_stdout (stdout w ++ [l2]) w) -> l1 = l2) as Hinj.
  { intros l1 l2 [= H%app_inv_head]. by injection H. }
  destruct (MiragicConfig.api_key_missing cfg) eqn:Hk;
    [|destruct (fs w !! MiragicConfig.input_dir cfg) as [n|] eqn:Hd];
    simpl; repeat split;
    try tauto; try discriminate; try congruence; eauto;
    try (intros H; apply Hinj in H; discriminate H);
    try (match goal with
         | H : (_, _) = (_, _) |- _ => apply Hinj in H; discriminate H
         end);
    try (by intros [? ?]); try (by intros [_ [? ?]]);
    try (by intros [?|?]); try (by intros _ [?|?]).
Qed.

(** C10: when [MIRAGIC_API_TIMEOUT] is set to a text that [int] refuses,
    whatever the texts are that [int] refuses, the constructor of
    [MiragicConfig] raises the [ValueError] of [int], and so does the
    import of the module, which builds the global instance: the
    interpreter leaves with status 1. *)
Theorem config_timeout_not_an_integer (int : string -> option Z)
  (env : gmap string string) (s : string) :
  env !! "MIRAGIC_API_TIMEOUT" = Some s ->
  int s = None ->
  MiragicConfig.init_with int env = Raise ValueError /\
  MiragicConfig.import_with int env = Raise ValueError /\
  exit_status (MiragicConfig.import_with int env) = 1.
Proof.
  intros Ht Hs.
  assert (MiragicConfig.init_with int env = Raise ValueError) as H.
  { apply init_with_raises. split; [done|].
    unfold MiragicConfig.getenv_default. by rewrite Ht. }
  unfold MiragicConfig.import_with. by rewrite H.
Qed.

Lemma config_timeout_not_an_integer_witness :
  let env : gmap string string :=
    <["MIRAGIC_API_TIMEOUT" := "30s"]> (<["MIRAGIC_API_KEY" := "k"]> ∅) in
  env !! "MIRAGIC_API_TIMEOUT" = Some "30s" /\
  py_int "30s" = None /\
  MiragicConfig.__init__ env = Raise ValueError /\
  MiragicConfig.import_module env = Raise ValueError /\
  exit_status (MiragicConfig.import_module env) = 1.
Proof.
  split; [reflexivity|]. split; [reflexivity|].
  apply (config_timeout_not_an_integer py_int _ "30s"); reflexivity.
Defined.

(** C4, on the code: in the empty environment, where [MIRAGIC_API_KEY]
    is unset, construction raises nothing and returns a configuration. *)
Lemma unset_key_builds_config :
  MiragicConfig.getenv ∅ "MIRAGIC_API_KEY" = None /\
  (exists cfg, MiragicConfig.__init__ ∅ = Ok cfg /\
               MiragicConfig.import_module ∅ = Ok cfg) /\
  ~ (exists e, MiragicConfig.__init__ ∅ = Raise e).
Proof.
  split; [reflexivity|]. split; [eexists; split; reflexivity|].
  intros [e He]. vm_compute in He. discriminate.
Qed.

(** C4, amended: in an environment without [MIRAGIC_API_KEY] whose
    timeout is unset or a text that [int] accepts, whatever the texts
    are that [int] accepts beside the default 30, construction succeeds
    with the key [None]; the missing key is reported by [validate],
    which returns [False] without raising. *)
Theorem config_without_key (int : string -> option Z)
  (env : gmap string string) :
  int "30" = Some 30 ->
  env !! "MIRAGIC_API_KEY" = None ->
  (forall s, env !! "MIRAGIC_API_TIMEOUT" = Some s -> is_Some (int s)) ->
  exists cfg,
    MiragicConfig.init_with int env = Ok cfg /\
    MiragicConfig.import_with int env = Ok cfg /\
    MiragicConfig.api_key cfg = None /\
    forall w, MiragicConfig.validate cfg w
              = (Ok false, with_stdout (stdout w ++ [api_key_not_found]) w).
Proof.
  intros H30 Hk Ht.
  destruct (MiragicConfig.init_with int env) as [cfg|e] eqn:Hi.
  - exists cfg. destruct (init_with_fields _ _ _ Hi) as (Ha & _).
    rewrite Hk in Ha. repeat split; try done.
    intros w. unfold MiragicConfig.validate, MiragicConfig.api_key_missing.
    by rewrite Ha.
  - apply init_with_raises in Hi as (_ & Hn).
    unfold MiragicConfig.getenv_default in Hn.
    destruct (env !! "MIRAGIC_API_TIMEOUT") as [s|] eqn:Hs; simpl in Hn.
    + destruct (Ht s eq_refl) as [z Hz]. congruence.
    + congruence.
Qed.

Lemma config_without_key_witness :
  let env : gmap string string := <["MIRAGIC_API_TIMEOUT" := "45"]> ∅ in
  env !! "MIRAGIC_API_KEY" = None /\
  exists cfg,
    MiragicConfig.__init__ env = Ok cfg /\
    MiragicConfig.import_module env = Ok cfg /\
    MiragicConfig.api_key cfg = None /\
    forall w, MiragicConfig.validate cfg w
              = (Ok false, with_stdout (stdout w ++ [api_key_not_found]) w).
Proof.
  split; [reflexivity|].
  apply (config_without_key py_int); [reflexivity|reflexivity|].
  intros s Hs. vm_compute in Hs. injection Hs as <-. by exists 45.
Defined.

(** ** The directories *)

Lemma makedirs_exist_ok p w :
  makedirs p true w =
  match fs w !! p with
  | None => (Ok tt, with_fs (<[p := Dir]> (fs w)) w)
  | Some Dir => (Ok tt, w)
  | Some (File _) => (Raise FileExistsError, w)
  end.
Proof.
  unfold makedirs, mkdir, path_isdir.
  destruct (fs w !! p) as [[|c]|] eqn:H; simpl; rewrite ?H; done.
Qed.

Lemma with_fs_id w : with_fs (fs w) w = w.
Proof. by destruct w. Qed.

Lemma with_fs_with_fs f g w : with_fs f (with_fs g w) = with_fs f w.
Proof. by destruct w. Qed.

Lemma ensure_twice (f : gmap string node) :
  <["output" := Dir]> (<["input" := Dir]> (<["output" := Dir]> (<["input" := Dir]> f)))
  = <["output" := Dir]> (<["input" := Dir]> f).
Proof.
  rewrite (insert_insert_ne _ "input" "output") by done.
  by rewrite !insert_insert_eq.
Qed.

Lemma setup_directories_default w cfg :
  MiragicConfig.input_dir cfg = "input" ->
  MiragicConfig.output_dir cfg = "output" ->
  MiragicConfig.setup_directories cfg w =
  match fs w !! "input", fs w !! "output" with
  | Some (File _), _ => (Raise FileExistsError, w)
  | _, Some (File _) =>
      (Raise FileExistsError, with_fs (<["input" := Dir]> (fs w)) w)
  | _, _ => (Ok tt, with_fs (<["output" := Dir]> (<["input" := Dir]> (fs w))) w)
  end.
Proof.
  intros Hin Hout. unfold MiragicConfig.setup_directories.
  rewrite Hin, Hout. unfold_M.
  rewrite makedirs_exist_ok.
  destruct (fs w !! "input") as [[|c]|] eqn:Hi; [| done |];
    rewrite makedirs_exist_ok; simpl;
    rewrite ?lookup_insert_ne by done;
    destruct (fs w !! "output") as [[|c']|] eqn:Ho; simpl;
    rewrite ?(insert_id (fs w) "input") by done;
    rewrite ?(insert_id (fs w) "output") by done;
    rewrite ?with_fs_id; try done.
  rewrite (insert_id _ "output") by (by rewrite lookup_insert_ne).
  done.
Qed.

(** C6, on the code: with a regular file named [input] in the way,
    [setup_directories] raises [FileExistsError]; the absent output
    directory is not created. *)
Lemma file_named_input_blocks_setup :
  MiragicConfig.__init__ ∅ = Ok Sample.default_config /\
  fs Sample.input_is_a_file !! "input" = Some (File "") /\
  fs Sample.input_is_a_file !! "output" = None /\
  MiragicConfig.setup_directories Sample.default_config Sample.input_is_a_file
    = (Raise FileExistsError, Sample.input_is_a_file).
Proof. repeat split; reflexivity. Qed.

(** C6, amended: for the configuration the constructor builds, running
    [setup_directories] twice leaves every file system as running it
    once does; and where neither [input] nor [output] is a regular file,
    it succeeds, both are directories afterwards and nothing else has
    changed, it changes nothing if both were directories, and the second
    run succeeds as well. *)
Theorem setup_directories_idempotent (env : gmap string string)
  (cfg : MiragicConfig.t) (w : world) :
  MiragicConfig.__init__ env = Ok cfg ->
  let once := MiragicConfig.setup_directories cfg w in
  let twice := MiragicConfig.setup_directories cfg (snd once) in
  snd twice = snd once /\
  ((forall c, fs w !! "input" <> Some (File c)) ->
   (forall c, fs w !! "output" <> Some (File c)) ->
   fst once = Ok tt /\
   fst twice = Ok tt /\
   fs (snd once) = <["output" := Dir]> (<["input" := Dir]> (fs w)) /\
   (fs w !! "input" = Some Dir -> fs w !! "output" = Some Dir -> snd once = w)).
Proof.
  intros (_ & Hin & Hout)%config_init_api_key. simpl.
  rewrite (setup_directories_default w) by done.
  destruct (fs w !! "input") as [[|c]|] eqn:Hi;
    destruct (fs w !! "output") as [[|c']|] eqn:Ho;
    rewrite setup_directories_default by done; simpl;
    rewrite ?lookup_insert_eq, ?lookup_insert_ne, ?lookup_insert_eq by done;
    rewrite ?Hi, ?Ho; simpl; rewrite ?with_fs_with_fs, ?ensure_twice;
    rewrite ?insert_insert_eq.
  all: split; [done|].
  all: try (intros H1 H2; exfalso; (by eapply H1) || (by eapply H2)).
  all: intros _ _; repeat split; try done.
  intros _ _. rewrite !insert_id by (by rewrite ?lookup_insert_ne).
  apply with_fs_id.
Qed.

Lemma setup_directories_idempotent_witness :
  MiragicConfig.__init__ ∅ = Ok Sample.default_config /\
  (forall c, fs Sample.empty_directory !! "input" <> Some (File c)) /\
  (forall c, fs Sample.empty_directory !! "output" <> Some (File c)) /\
  let once :=
    MiragicConfig.setup_directories Sample.default_config Sample.empty_directory in
  let twice := MiragicConfig.setup_directories Sample.default_config (snd once) in
  snd twice = snd once /\
  fst once = Ok tt /\
  fst twice = Ok tt /\
  fs (snd once) = <["output" := Dir]> (<["input" := Dir]> ∅).
Proof.
  split; [reflexivity|].
  assert (forall c, fs Sample.empty_directory !! "input" <> Some (File c)) as Hi
    by (intros c H; vm_compute in H; discriminate).
  assert (forall c, fs Sample.empty_directory !! "output" <> Some (File c)) as Ho
    by (intros c H; vm_compute in H; discriminate).
  split; [exact Hi|]. split; [exact Ho|].
  assert (MiragicConfig.__init__ ∅ = Ok Sample.default_config) as Hc
    by reflexivity.
  destruct (setup_directories_idempotent ∅ Sample.default_config
              Sample.empty_directory Hc) as (Hsame & Hok).
  destruct (Hok Hi Ho) as (H1 & H2 & H3 & _).
  repeat split; assumption.
Defined.

(** ** Calls on the facade *)

(** C9: the class defines [remove_background], [upscale_image],
    [blur_background], [get_version] and [__init__] and nothing else; on
    every facade the constructor builds, [sdk.get_api_status()] and
    [sdk.get_usage_stats()] raise [AttributeError] and change nothing;
    the handlers catch it, print their failure line and leave through
    [sys.exit(1)], a non-zero status. *)
Theorem status_and_usage_raise_AttributeError (api_key : pyval) (w : world) :
  let sdk := MiragicSDK.__init__ api_key in
  dom MiragicSDK.class_dict
    = ({["__init__"; "remove_background"; "upscale_image"; "blur_background";
         "get_version"]} : gset string) /\
  MiragicSDK.call sdk "get_api_status" [] [] w = (Raise AttributeError, w) /\
  MiragicSDK.call sdk "get_usage_stats" [] [] w = (Raise AttributeError, w) /\
  CliApiExample.status_try sdk w
    = (Raise (SystemExit 1),
       with_stdout (stdout w ++ [status_failed AttributeError]) w) /\
  CliApiExample.usage_try sdk w
    = (Raise (SystemExit 1),
       with_stdout (stdout w ++ [usage_failed AttributeError]) w) /\
  exit_status (fst (CliApiExample.status_try sdk w)) <> 0 /\
  exit_status (fst (CliApiExample.usage_try sdk w)) <> 0.
Proof.
  simpl. split.
  - unfold MiragicSDK.class_dict. simpl. rewrite !dom_insert_L, dom_empty_L.
    set_solver.
  - repeat split; done.
Qed.

(** In the handlers as written the facade comes from [setup_sdk], which
    ends in a constructor call with the keyword [use_api]:
    [status_command] and [usage_command] leave with [sys.exit(1)], a
    [FileExistsError] of the directory setup or that [TypeError] before
    their [try] statement is entered. *)
Lemma setup_sdk_never_returns config w :
  exists e w', CliApiExample.setup_sdk config w = (Raise e, w') /\
               (e = SystemExit 1 \/ e = TypeError \/ e = FileExistsError).
Proof.
  unfold CliApiExample.setup_sdk. unfold_M.
  destruct (validate_total config w) as [[|] ->]; simpl; [|eauto 6].
  destruct (MiragicConfig.setup_directories config w) as [[[]|e] w'] eqn:Hs.
  - eauto 6.
  - exists e, w'. split; [done|]. right. right.
    revert Hs. unfold MiragicConfig.setup_directories. unfold_M.
    rewrite makedirs_exist_ok.
    destruct (fs w !! _) as [[|c]|]; try (intros [= <- _]; done);
      rewrite makedirs_exist_ok; simpl;
      destruct (_ !! _) as [[|c']|]; intros [= <- _]; done.
Qed.

(** C2, on the code: on every facade the constructor builds, the call
    [sdk.blur_background(...)] finds the stored client instead of the
    function of the class and calls that; with any arguments it raises
    [TypeError], sends nothing and writes nothing. *)
Theorem blur_background_call_on_instance (api_key : pyval)
  (pos : list pyval) (kw : list (string * pyval)) (w : world) :
  let sdk := MiragicSDK.__init__ api_key in
  MiragicSDK.call sdk "blur_background" pos kw w
  = FeatureClients.call_value (PClient BlurBackground api_key) pos kw w /\
  MiragicSDK.call sdk "blur_background" pos kw w = (Raise TypeError, w).
Proof. split; reflexivity. Qed.

(** The function of the class, reached with an explicit instance,
    delegates: it returns the output path after the request of the
    client, and a strength outside the unit interval is sent on like
    any other. *)
Example blur_background_function_delegates :
  let sdk := MiragicSDK.__init__ (PStr "k") in
  let w := Sample.second_missing in
  MiragicSDK.call_function MiragicSDK.blur_background_method sdk
    [PStr "image1.jpg"; PStr "out.jpg"; PFloat (8 # 10)] [] w
  = (Ok (PStr "out.jpg"),
     with_fs (<["out.jpg" := File "bytes"]> (fs w))
       (with_sent [{| req_client := BlurBackground;
                      req_api_key := PStr "k";
                      req_input := PStr "image1.jpg";
                      req_options := [("blur_strength", PFloat (8 # 10))] |}] w)) /\
  MiragicSDK.call_function MiragicSDK.blur_background_method sdk
    [PStr "image1.jpg"; PStr "out.jpg"; PFloat (15 # 10)] [] w
  = (Ok (PStr "out.jpg"),
     with_fs (<["out.jpg" := File "bytes"]> (fs w))
       (with_sent [{| req_client := BlurBackground;
                      req_api_key := PStr "k";
                      req_input := PStr "image1.jpg";
                      req_options := [("blur_strength", PFloat (15 # 10))] |}] w)).
Proof. split; reflexivity. Qed.

(** ** The batch example *)

(** C8, on the code: with the first and third input present and the
    second missing, as in every other state, [batch_processing_example]
    ends in the [TypeError] of its constructor call before the loop: no
    item is processed, nothing is printed, nothing is sent. *)
Theorem batch_example_stops_at_the_constructor :
  fs Sample.second_missing !! "image1.jpg" = Some (File "one") /\
  fs Sample.second_missing !! "image2.jpg" = None /\
  fs Sample.second_missing !! "image3.jpg" = Some (File "three") /\
  ApiUsageExample.batch_processing_example Sample.second_missing
    = (Raise TypeError, Sample.second_missing) /\
  forall w, ApiUsageExample.batch_processing_example w = (Raise TypeError, w).
Proof. repeat split; reflexivity. Qed.

(** The loop itself, entered with a facade built from the API key alone:
    the missing second item is skipped and the third is reached, but for
    each present item the call [sdk.blur_background(...)] raises
    [TypeError] after the background removal, so two failures are
    printed and no item is completed. *)
Example batch_loop_second_missing :
  let r := ApiUsageExample.batch_loop (MiragicSDK.__init__ (PStr ApiUsageExample.API_KEY))
             ApiUsageExample.input_images Sample.second_missing in
  fst r = Ok tt /\
  stdout (snd r)
    = [batch_start;
       processing "image1.jpg" 1 3; failed "image1.jpg" TypeError;
       skipping "image2.jpg";
       processing "image3.jpg" 3 3; failed "image3.jpg" TypeError;
       batch_done] /\
  length (sent (snd r)) = 2%nat.
Proof. repeat split; vm_compute; reflexivity. Qed.

(** ** Keywords collected by [**kwargs] *)


Lemma bind_keywords_collect sig (kw : list (string * pyval)) :
  forall (acc : gmap string pyval) (extra : list (string * pyval)),
  var_keyword sig = true ->
  NoDup (extra ++ kw)%list.*1 ->
  (forall k, k ∈ kw.*1 -> is_param sig k = false) ->
  bind_keywords sig kw acc extra = Ok (acc, (extra ++ kw)%list).
Proof.
  induction kw as [|[k v] kw IH]; intros acc extra Hv Hnd Hnp; simpl.
  - by rewrite app_nil_r.
  - rewrite Hnp by (simpl; left). rewrite Hv.
    assert (k ∉ extra.*1) as Hk.
    { rewrite fmap_app in Hnd. apply NoDup_app in Hnd as (_ & Hd & _).
      intros Hk. apply (Hd k Hk). simpl. left. }
    rewrite bool_decide_eq_false_2 by done.
    rewrite IH; [by rewrite <- app_assoc|done| |].
    + by rewrite <- app_assoc.
    + intros x Hx. apply Hnp. simpl. by right.
Qed.






Lemma check_input_world a w r w1 :
  FeatureClients.check_input a w = (r, w1) -> w1 = w.
Proof.
  destruct a; simpl; try (by intros [= _ <-]).
  destruct (fs w !! s) as [[|c]|]; try (by intros [= _ <-]).
  destruct (FeatureClients.has_supported_format s); by intros [= _ <-].
Qed.





(** ** Isolation of the items of the batch loop *)

Lemma roe_ret {A} (a : A) : raises_only_Exception (mret a).
Proof. intros w e w'. unfold_M. discriminate. Qed.

Lemma roe_raise {A} e : is_Exception e = true -> raises_only_Exception (@raise A e).
Proof. intros He w e' w'. unfold_M. by intros [= <- _]. Qed.

Lemma roe_lift {A} (r : result A) :
  (forall e, r = Raise e -> is_Exception e = true) -> raises_only_Exception (lift r).
Proof. intros Hr w e w'. unfold_M. intros [= -> _]. by apply Hr. Qed.

Lemma roe_bind {A B} (c : M A) (k : A -> M B) :
  raises_only_Exception c -> (forall a, raises_only_Exception (k a)) ->
  raises_only_Exception (c ≫= k).
Proof.
  intros Hc Hk w e w'. unfold_M.
  destruct (c w) as [[a|e1] w1] eqn:Hcw.
  - apply Hk.
  - intros [= <- <-]. by eapply Hc.
Qed.

Lemma roe_print l : raises_only_Exception (print l).
Proof. intros w e w'. unfold_M. discriminate. Qed.

Lemma bind_positional_raises ps pos : forall acc e,
  bind_positional ps pos acc = Raise e -> e = TypeError.
Proof.
  revert ps. induction pos as [|v pos IH]; intros [|[name d] ps] acc e; simpl;
    try discriminate; [by intros [= <-]|apply IH].
Qed.

Lemma bind_keywords_raises sig (kw : list (string * pyval)) : forall acc extra e,
  bind_keywords sig kw acc extra = Raise e -> e = TypeError.
Proof.
  induction kw as [|[k v] kw IH]; intros acc extra e; simpl; [discriminate|].
  destruct (is_param sig k).
  - destruct (acc !! k); [by intros [= <-]|]. apply IH.
  - destruct (var_keyword sig); [|by intros [= <-]].
    case_bool_decide; [by intros [= <-]|]. apply IH.
Qed.

Lemma fill_defaults_raises ps : forall acc e,
  fill_defaults ps acc = Raise e -> e = TypeError.
Proof.
  induction ps as [|[name d] ps IH]; intros acc e; simpl; [discriminate|].
  destruct (acc !! name); [apply IH|].
  destruct d; [apply IH|by intros [= <-]].
Qed.

Lemma bind_args_raises sig pos kw e :
  bind_args sig pos kw = Raise e -> e = TypeError.
Proof.
  unfold bind_args, result_bind.
  destruct (bind_positional _ pos ∅) as [acc|e1] eqn:H1;
    [|intros [= <-]; by eapply bind_positional_raises].
  destruct (bind_keywords sig kw acc []) as [[acc' extra]|e2] eqn:H2;
    [|intros [= <-]; by eapply bind_keywords_raises].
  destruct (fill_defaults _ acc') as [acc''|e3] eqn:H3;
    [discriminate|intros [= <-]; by eapply fill_defaults_raises].
Qed.

Lemma bind_method_args_raises sig pos kw e :
  bind_method_args sig pos kw = Raise e -> e = TypeError.
Proof.
  unfold bind_method_args. case_bool_decide; [by intros [= <-]|].
  apply bind_args_raises.
Qed.

Lemma roe_client_call k api_key pos kw :
  raises_only_Exception (FeatureClients.call k api_key pos kw).
Proof.
  unfold FeatureClients.call. apply roe_bind.
  - apply roe_lift. by intros e ->%bind_method_args_raises.
  - intros [locals kwargs]. unfold FeatureClients.run.
    apply roe_bind.
    + intros w e w'. unfold FeatureClients.check_input.
      destruct (arg locals "input_path"); unfold_M; try by intros [= <- _].
      destruct (fs w !! _) as [[|c]|]; try by intros [= <- _].
      destruct (FeatureClients.has_supported_format _); [discriminate|by intros [= <- _]].
    + intros _. apply roe_bind.
      * intros w e w'. unfold FeatureClients.remote_call.
        destruct (service w _); [discriminate|by intros [= <- _]..].
      * intros data. apply roe_bind; [|intros; apply roe_ret].
        unfold FeatureClients.write_file.
        destruct (arg locals "output_path"); try by apply roe_raise.
        intros w e w'. discriminate.
Qed.

Lemma roe_sdk_call sdk name pos kw :
  raises_only_Exception (MiragicSDK.call sdk name pos kw).
Proof.
  assert (forall self attr meth p k,
            raises_only_Exception (MiragicSDK.delegate self attr meth p k)) as Hd.
  { intros self attr meth p k. unfold MiragicSDK.delegate. apply roe_bind.
    - apply roe_lift. unfold MiragicSDK.getattribute.
      destruct (self !! attr); [discriminate|].
      destruct (MiragicSDK.class_dict !! attr); [discriminate|by intros e [= <-]].
    - intros [v|m]; [|by apply roe_raise].
      apply roe_bind.
      + apply roe_lift. unfold FeatureClients.getattr.
        destruct v; try by intros e [= <-].
        destruct (String.eqb _ _); [discriminate|by intros e [= <-]].
      + intros [c key]. apply roe_client_call. }
  unfold MiragicSDK.call. apply roe_bind.
  - apply roe_lift. unfold MiragicSDK.getattribute.
    destruct (sdk !! name); [discriminate|].
    destruct (MiragicSDK.class_dict !! name); [discriminate|by intros e [= <-]].
  - intros [v|m]; [by apply roe_raise|].
    unfold MiragicSDK.call_function. apply roe_bind.
    + apply roe_lift. by intros e ->%bind_method_args_raises.
    + intros [locals kwargs]. destruct m; simpl;
        try apply Hd; [apply roe_ret|].
      intros w e w'. unfold MiragicSDK.get_version. discriminate.
Qed.

(** Whatever the facade, a turn of the loop ends normally: an exception
    of the three calls is caught and printed. *)
Lemma turn_returns sdk output_dir n item w :
  exists w', ApiUsageExample.turn sdk output_dir n item w = (Ok tt, w').
Proof.
  destruct item as [i input_image]. unfold ApiUsageExample.turn.
  unfold mbind at 1, M_bind at 1, bind at 1, path_exists.
  destruct (negb _); [unfold_M; eauto|].
  unfold mbind at 1, M_bind at 1, bind at 1, print at 1, try_except.
  set (w1 := with_stdout _ w).
  destruct (ApiUsageExample.process sdk output_dir i input_image w1)
    as [[[]|e] w2] eqn:Hp; [eauto|].
  assert (is_Exception e = true) as ->; [|unfold_M; eauto].
  revert Hp. apply (roe_bind _ _ (roe_sdk_call _ _ _ _)). intros _.
  apply (roe_bind _ _ (roe_sdk_call _ _ _ _)). intros _.
  apply (roe_bind _ _ (roe_sdk_call _ _ _ _)). intros _.
  apply roe_print.
Qed.

Lemma for_each_returns {A} (body : A -> M unit) (l : list A) :
  (forall x w, exists w', body x w = (Ok tt, w')) ->
  forall w, exists w', for_each l body w = (Ok tt, w').
Proof.
  intros Hb. induction l as [|x l IH]; intros w; simpl; [by eexists|].
  unfold bind. destruct (Hb x w) as [w1 ->]. apply IH.
Qed.

(** The loop goes through every list of inputs to its end, with any
    facade and in any state in which the output directory can be made:
    no item aborts the run. *)
Lemma batch_loop_returns sdk images w :
  (forall c, fs w !! "batch_output" <> Some (File c)) ->
  exists w', ApiUsageExample.batch_loop sdk images w = (Ok tt, w').
Proof.
  intros Hd. unfold ApiUsageExample.batch_loop. unfold_M.
  rewrite makedirs_exist_ok.
  assert (forall w1, exists w',
            for_each (ApiUsageExample.enumerate images)
              (ApiUsageExample.turn sdk "batch_output" (length images)) w1
            = (Ok tt, w')) as Hk.
  { apply for_each_returns. intros. apply turn_returns. }
  destruct (fs w !! "batch_output") as [[|c]|] eqn:Hb.
  - destruct (Hk (with_stdout (stdout w ++ [batch_start]) w)) as [w2 ->]. eauto.
  - by destruct (Hd c).
  - match goal with |- context [for_each _ _ ?w1] =>
      destruct (Hk w1) as [w2 ->] end.
    eauto.
Qed.

(** * Further properties of the code *)

(** ** [setup_sdk] and the handlers of the command line *)

(** With the configuration the constructor builds, [setup_sdk] has six
    outcomes and none is a facade: it leaves through [sys.exit(1)] after
    one printed line when the key is missing or nothing is at [input];
    otherwise the directory setup raises [FileExistsError] on a regular
    file, or the constructor call raises [TypeError], after [output] was
    made if it was absent. *)
Theorem setup_sdk_outcome (env : gmap string string) (cfg : MiragicConfig.t)
  (w : world) :
  MiragicConfig.__init__ env = Ok cfg ->
  CliApiExample.setup_sdk cfg w =
  if MiragicConfig.api_key_missing cfg
  then (Raise (SystemExit 1), with_stdout (stdout w ++ [api_key_not_found]) w)
  else
    match fs w !! "input" with
    | None =>
        (Raise (SystemExit 1),
         with_stdout (stdout w ++ [input_dir_missing "input"]) w)
    | Some (File _) => (Raise FileExistsError, w)
    | Some Dir =>
        match fs w !! "output" with
        | Some (File _) => (Raise FileExistsError, w)
        | Some Dir => (Raise TypeError, w)
        | None => (Raise TypeError, with_fs (<["output" := Dir]> (fs w)) w)
        end
    end.
Proof.
  intros (_ & Hin & Hout)%config_init_api_key.
  unfold CliApiExample.setup_sdk, MiragicConfig.validate.
  destruct (MiragicConfig.api_key_missing cfg); [done|].
  rewrite Hin. unfold_M. unfold path_exists.
  destruct (fs w !! "input") as [[|c]|] eqn:Hi; simpl; [| |done];
    rewrite (setup_directories_default w) by done; rewrite Hi; [|done].
  destruct (fs w !! "output") as [[|c']|] eqn:Ho.
  - rewrite insert_id by (by rewrite lookup_insert_ne). rewrite insert_id by done.
    by rewrite with_fs_id.
  - rewrite insert_id by done. by rewrite with_fs_id.
  - by rewrite (insert_id (fs w) "input") by done.
Qed.

Lemma setup_sdk_outcome_witness :
  let w := with_fs (<["input" := Dir]> ∅) Sample.empty_directory in
  let env : gmap string string := <["MIRAGIC_API_KEY" := "k"]> ∅ in
  exists cfg,
    MiragicConfig.__init__ env = Ok cfg /\
    CliApiExample.setup_sdk cfg w
    = (Raise TypeError, with_fs (<["output" := Dir]> (fs w)) w) /\
    CliApiExample.setup_sdk cfg Sample.empty_directory
    = (Raise (SystemExit 1),
       with_stdout [input_dir_missing "input"] Sample.empty_directory).
Proof.
  intros w env.
  destruct (MiragicConfig.__init__ env) as [cfg|e] eqn:Hc;
    [|vm_compute in Hc; discriminate].
  exists cfg. split; [reflexivity|].
  pose proof (setup_sdk_outcome env cfg w Hc) as H1.
  pose proof (setup_sdk_outcome env cfg Sample.empty_directory Hc) as H2.
  assert (MiragicConfig.api_key_missing cfg = false) as Hk.
  { vm_compute in Hc. injection Hc as <-. reflexivity. }
  rewrite Hk in H1, H2. split; [exact H1|exact H2].
Defined.

(** Every handler of the command line starts with [sdk = setup_sdk()]
    outside its [try]: whatever follows is never run.  With any
    configuration and in any state the handler ends in an exception with
    exit status 1, no request has been sent, and the path of the input
    directory holds what it held before: [setup_sdk] never creates the
    input directory, since [validate] has already required it. *)
Theorem handler_stops_in_setup_sdk (config : MiragicConfig.t)
  (rest : gmap string pyval -> M unit) (w : world) :
  exists e w',
    (CliApiExample.setup_sdk config ≫= rest) w = (Raise e, w') /\
    CliApiExample.setup_sdk config w = (Raise e, w') /\
    exit_status (@Raise unit e) = 1 /\
    sent w' = sent w /\
    fs w' !! MiragicConfig.input_dir config = fs w !! MiragicConfig.input_dir config.
Proof.
  assert (forall e w',
            CliApiExample.setup_sdk config w = (Raise e, w') ->
            exit_status (@Raise unit e) = 1 /\ sent w' = sent w /\
            fs w' !! MiragicConfig.input_dir config
            = fs w !! MiragicConfig.input_dir config) as Hs.
  { intros e w'. unfold CliApiExample.setup_sdk, MiragicConfig.validate.
    destruct (MiragicConfig.api_key_missing config);
      [unfold_M; by intros [= <- <-]|].
    unfold MiragicConfig.setup_directories. unfold_M. unfold path_exists.
    destruct (fs w !! MiragicConfig.input_dir config) as [[|c]|] eqn:Hi; simpl;
      [| rewrite makedirs_exist_ok, Hi; by intros [= <- <-]
       | by intros [= <- <-] ].
    rewrite makedirs_exist_ok, Hi, makedirs_exist_ok.
    destruct (fs w !! MiragicConfig.output_dir config) as [[|c']|] eqn:Ho;
      intros [= <- <-]; simpl; repeat split; try done.
    rewrite lookup_insert_ne; [done|]. intros Heq. rewrite Heq in Ho. congruence. }
  destruct (setup_sdk_never_returns config w) as (e & w' & He & _).
  exists e, w'. split; [|split; [done|by apply Hs]].
  unfold mbind, M_bind, bind. by rewrite He.
Qed.

(** ** Validation and directory setup in the other order *)

(** With a key in the configuration, [validate] succeeds silently in
    every state that a successful [setup_directories] leaves, also when
    it failed before for want of the input directory: the two compose in
    this order, not in the order [setup_sdk] runs them. *)
Theorem validate_after_setup_directories (env : gmap string string)
  (cfg : MiragicConfig.t) (w w' : world) :
  MiragicConfig.__init__ env = Ok cfg ->
  MiragicConfig.api_key_missing cfg = false ->
  MiragicConfig.setup_directories cfg w = (Ok tt, w') ->
  MiragicConfig.validate cfg w' = (Ok true, w') /\
  (fs w !! "input" = None ->
   MiragicConfig.validate cfg w
   = (Ok false, with_stdout (stdout w ++ [input_dir_missing "input"]) w)).
Proof.
  intros (_ & Hin & Hout)%config_init_api_key Hk.
  rewrite (setup_directories_default w) by done.
  unfold MiragicConfig.validate. rewrite Hk, Hin. unfold_M. unfold path_exists.
  intros Hs. split.
  - assert (fs w' !! "input" = Some Dir) as ->; [|done].
    destruct (fs w !! "input") as [[|c]|] eqn:Hi;
      destruct (fs w !! "output") as [[|c']|] eqn:Ho;
      simplify_eq; simpl;
      by rewrite lookup_insert_ne, lookup_insert_eq by done.
  - by intros ->.
Qed.

Lemma validate_after_setup_directories_witness :
  let env : gmap string string := <["MIRAGIC_API_KEY" := "k"]> ∅ in
  let w := Sample.empty_directory in
  let w' := with_fs (<["output" := Dir]> (<["input" := Dir]> ∅)) w in
  exists cfg,
    MiragicConfig.__init__ env = Ok cfg /\
    MiragicConfig.setup_directories cfg w = (Ok tt, w') /\
    MiragicConfig.validate cfg w' = (Ok true, w') /\
    MiragicConfig.validate cfg w
    = (Ok false, with_stdout (stdout w ++ [input_dir_missing "input"]) w).
Proof.
  intros env w w'.
  destruct (MiragicConfig.__init__ env) as [cfg|e] eqn:Hc;
    [|vm_compute in Hc; discriminate].
  assert (MiragicConfig.api_key_missing cfg = false) as Hk.
  { vm_compute in Hc. injection Hc as <-. reflexivity. }
  assert (MiragicConfig.setup_directories cfg w = (Ok tt, w')) as Hs.
  { vm_compute in Hc. injection Hc as <-. reflexivity. }
  exists cfg. split; [reflexivity|]. split; [exact Hs|].
  destruct (validate_after_setup_directories env cfg w w' Hc Hk Hs) as [H1 H2].
  split; [exact H1|]. apply H2. reflexivity.
Defined.

(** ** What the facade forwards *)

Lemma not_a_parameter sig (k : string) (names : list string) :
  (params sig).*1 ⊆ names -> k ∉ names -> is_param sig k = false.
Proof.
  intros Hsub Hk. unfold is_param. apply bool_decide_eq_false_2.
  intros Hin. by apply Hk, Hsub.
Qed.

Lemma not_self (kwargs : list (string * pyval)) :
  (forall k, k ∈ kwargs.*1 -> k ∉ operation_parameters) -> "self" ∉ kwargs.*1.
Proof. intros Hk Hin. apply (Hk _ Hin). by left. Qed.

Lemma operation_keywords_collect m (kwargs : list (string * pyval))
  (acc : gmap string pyval) :
  var_keyword (MiragicSDK.signature_of m) = true ->
  NoDup kwargs.*1 ->
  (forall k, k ∈ kwargs.*1 -> k ∉ operation_parameters) ->
  bind_keywords (MiragicSDK.signature_of m) kwargs acc [] = Ok (acc, kwargs).
Proof.
  intros Hv Hnd Hk. apply (bind_keywords_collect _ kwargs acc []); [done|done|].
  intros k Hin. apply (not_a_parameter _ _ operation_parameters); [|by apply Hk].
  intros x Hx. apply list_elem_of_In. apply list_elem_of_In in Hx.
  unfold operation_parameters. destruct m; try discriminate Hv; simpl in *; tauto.
Qed.

Lemma operation_binds m (pos : list pyval) (kwargs : list (string * pyval))
  (acc : gmap string pyval) :
  var_keyword (MiragicSDK.signature_of m) = true ->
  bind_positional (params (MiragicSDK.signature_of m)) pos ∅ = Ok acc ->
  NoDup kwargs.*1 ->
  (forall k, k ∈ kwargs.*1 -> k ∉ operation_parameters) ->
  bind_method_args (MiragicSDK.signature_of m) pos kwargs
  = result_bind (fill_defaults (params (MiragicSDK.signature_of m)) acc)
      (fun acc' => Ok (acc', kwargs)).
Proof.
  intros Hv Hp Hnd Hk. unfold bind_method_args.
  rewrite bool_decide_eq_false_2 by (by apply not_self).
  unfold bind_args. rewrite Hp. unfold result_bind at 1.
  by rewrite operation_keywords_collect.
Qed.

Lemma client_keywords_collect c (kwargs : list (string * pyval))
  (acc : gmap string pyval) :
  NoDup kwargs.*1 ->
  (forall k, k ∈ kwargs.*1 -> k ∉ operation_parameters) ->
  bind_keywords (FeatureClients.method_signature c) kwargs acc [] = Ok (acc, kwargs).
Proof.
  intros Hnd Hk. apply (bind_keywords_collect _ kwargs acc []);
    [by destruct c|done|].
  intros k Hin. apply (not_a_parameter _ _ operation_parameters); [|by apply Hk].
  intros x Hx. apply list_elem_of_In. apply list_elem_of_In in Hx.
  unfold operation_parameters. destruct c; simpl in *; tauto.
Qed.

(** A call with the input and the output by position and options that
    are no parameter names reaches the client of the operation with the
    same input, output and options and with the API key of the
    constructor; [upscale_image] fills in the scale factor 2 and the
    function [blur_background] of the class the strength 0.8 when the
    caller leaves them out.  An option named [self] is no such call:
    it raises [TypeError] and the client is not reached. *)
Theorem facade_forwards_with_defaults (api_key i o : pyval)
  (kwargs : list (string * pyval)) (w : world) :
  NoDup kwargs.*1 ->
  (forall k, k ∈ kwargs.*1 -> k ∉ operation_parameters) ->
  let sdk := MiragicSDK.__init__ api_key in
  (MiragicSDK.call sdk "remove_background" [i; o] kwargs w
   = FeatureClients.call BackgroundRemover api_key [i; o] kwargs w /\
   MiragicSDK.call sdk "upscale_image" [i; o] kwargs w
   = FeatureClients.call ImageUpscaler api_key [i; o; PInt 2] kwargs w /\
   MiragicSDK.call_function MiragicSDK.blur_background_method sdk [i; o] kwargs w
   = FeatureClients.call BlurBackground api_key [i; o; PFloat (8 # 10)] kwargs w) /\
  forall v,
    MiragicSDK.call sdk "remove_background" [i; o] (("self", v) :: kwargs) w
    = (Raise TypeError, w) /\
    MiragicSDK.call sdk "upscale_image" [i; o] (("self", v) :: kwargs) w
    = (Raise TypeError, w) /\
    MiragicSDK.call_function MiragicSDK.blur_background_method sdk [i; o]
      (("self", v) :: kwargs) w
    = (Raise TypeError, w).
Proof.
  intros Hnd Hk. simpl. split; [|intros v; repeat split; reflexivity].
  unfold MiragicSDK.call, MiragicSDK.call_function.
  change (MiragicSDK.getattribute (MiragicSDK.__init__ api_key) "remove_background")
    with (Ok (MiragicSDK.Bound MiragicSDK.remove_background_method)).
  change (MiragicSDK.getattribute (MiragicSDK.__init__ api_key) "upscale_image")
    with (Ok (MiragicSDK.Bound MiragicSDK.upscale_image_method)).
  unfold_M.
  rewrite (operation_binds MiragicSDK.remove_background_method [i; o] kwargs
             _ eq_refl eq_refl Hnd Hk).
  rewrite (operation_binds MiragicSDK.upscale_image_method [i; o] kwargs
             _ eq_refl eq_refl Hnd Hk).
  rewrite (operation_binds MiragicSDK.blur_background_method [i; o] kwargs
             _ eq_refl eq_refl Hnd Hk).
  repeat split; reflexivity.
Qed.

Lemma facade_forwards_with_defaults_witness :
  let sdk := MiragicSDK.__init__ (PStr "k") in
  let w := Sample.second_missing in
  let kwargs := [("method", PStr "bicubic")] in
  MiragicSDK.call sdk "upscale_image" [PStr "image1.jpg"; PStr "big.jpg"] kwargs w
  = FeatureClients.call ImageUpscaler (PStr "k")
      [PStr "image1.jpg"; PStr "big.jpg"; PInt 2] kwargs w /\
  MiragicSDK.call sdk "upscale_image" [PStr "image1.jpg"; PStr "big.jpg"]
    (("self", PInt 1) :: kwargs) w
  = (Raise TypeError, w).
Proof.
  assert (NoDup [("method", PStr "bicubic")].*1) as Hnd by apply NoDup_singleton.
  assert (forall k, k ∈ [("method", PStr "bicubic")].*1 ->
                    k ∉ operation_parameters) as Hk.
  { intros k ->%list_elem_of_singleton Hin.
    apply list_elem_of_In in Hin. simpl in Hin.
    repeat (destruct Hin as [Hin|Hin]; [discriminate|]). done. }
  split.
  - exact (proj1 (proj2 (proj1 (facade_forwards_with_defaults (PStr "k")
      (PStr "image1.jpg") (PStr "big.jpg") [("method", PStr "bicubic")]
      Sample.second_missing Hnd Hk)))).
  - exact (proj1 (proj2 (proj2 (facade_forwards_with_defaults (PStr "k")
      (PStr "image1.jpg") (PStr "big.jpg") [("method", PStr "bicubic")]
      Sample.second_missing Hnd Hk) (PInt 1)))).
Defined.

(** ** The lines of the batch loop *)

Lemma ks_bind {A B} (c : M A) (k : A -> M B) :
  keeps_stdout c -> (forall a, keeps_stdout (k a)) -> keeps_stdout (c ≫= k).
Proof.
  intros Hc Hk w r w'. unfold_M.
  destruct (c w) as [[a|e] w1] eqn:Hcw.
  - intros Hka. rewrite (Hk _ _ _ _ Hka). by eapply Hc.
  - intros [= <- <-]. by eapply Hc.
Qed.

Lemma ks_lift {A} (r : result A) : keeps_stdout (lift r).
Proof. intros w r' w'. unfold_M. by intros [= _ <-]. Qed.

Lemma ks_raise {A} e : keeps_stdout (@raise A e).
Proof. intros w r' w'. unfold_M. by intros [= _ <-]. Qed.

Lemma ks_client_call k api_key pos kw :
  keeps_stdout (FeatureClients.call k api_key pos kw).
Proof.
  unfold FeatureClients.call. apply ks_bind; [apply ks_lift|].
  intros [locals kwargs]. unfold FeatureClients.run.
  apply ks_bind.
  - intros w r w' H. by rewrite (check_input_world _ _ _ _ H).
  - intros _. apply ks_bind.
    + intros w r w'. unfold FeatureClients.remote_call.
      destruct (service w _); by intros [= _ <-].
    + intros data. apply ks_bind.
      * unfold FeatureClients.write_file.
        destruct (arg locals "output_path"); try apply ks_raise.
        intros w r w'. by intros [= _ <-].
      * intros _ w r w'. unfold_M. by intros [= _ <-].
Qed.

Lemma ks_sdk_call sdk name pos kw :
  keeps_stdout (MiragicSDK.call sdk name pos kw).
Proof.
  assert (forall self attr meth p k,
            keeps_stdout (MiragicSDK.delegate self attr meth p k)) as Hd.
  { intros self attr meth p k. unfold MiragicSDK.delegate.
    apply ks_bind; [apply ks_lift|].
    intros [v|m]; [|apply ks_raise].
    apply ks_bind; [apply ks_lift|]. intros [c key]. apply ks_client_call. }
  unfold MiragicSDK.call. apply ks_bind; [apply ks_lift|].
  intros [v|m]; [apply ks_raise|].
  unfold MiragicSDK.call_function. apply ks_bind; [apply ks_lift|].
  intros [locals kwargs]. destruct m; simpl; try apply Hd.
  - intros w r w'. unfold_M. by intros [= _ <-].
  - intros w r w'. unfold MiragicSDK.get_version. by intros [= _ <-].
Qed.

(** The three calls of a turn print nothing themselves; [completed] is
    printed exactly when all three return. *)
Lemma process_lines sdk output_dir i input_image w :
  exists r w',
    ApiUsageExample.process sdk output_dir i input_image w = (r, w') /\
    ((r = Ok tt /\ stdout w' = (stdout w ++ [completed input_image])%list) \/
     (exists e, r = Raise e /\ is_Exception e = true /\ stdout w' = stdout w)).
Proof.
  unfold ApiUsageExample.process.
  unfold mbind at 1, M_bind at 1, bind at 1.
  destruct (MiragicSDK.call sdk "remove_background" _ _ w) as [[v1|e1] w1] eqn:H1.
  2:{ eexists _, _. split; [done|]. right. exists e1. repeat split.
      - by eapply roe_sdk_call.
      - by eapply ks_sdk_call. }
  unfold mbind at 1, M_bind at 1, bind at 1.
  destruct (MiragicSDK.call sdk "blur_background" _ _ w1) as [[v2|e2] w2] eqn:H2.
  2:{ eexists _, _. split; [done|]. right. exists e2. repeat split.
      - by eapply roe_sdk_call.
      - rewrite (ks_sdk_call _ _ _ _ _ _ _ H2). by eapply ks_sdk_call. }
  unfold mbind at 1, M_bind at 1, bind at 1.
  destruct (MiragicSDK.call sdk "upscale_image" _ _ w2) as [[v3|e3] w3] eqn:H3.
  2:{ eexists _, _. split; [done|]. right. exists e3. repeat split.
      - by eapply roe_sdk_call.
      - rewrite (ks_sdk_call _ _ _ _ _ _ _ H3), (ks_sdk_call _ _ _ _ _ _ _ H2).
        by eapply ks_sdk_call. }
  eexists _, _. split; [done|]. left. split; [done|]. simpl.
  rewrite (ks_sdk_call _ _ _ _ _ _ _ H3), (ks_sdk_call _ _ _ _ _ _ _ H2).
  by rewrite (ks_sdk_call _ _ _ _ _ _ _ H1).
Qed.

Lemma turn_prints sdk output_dir n i input_image w :
  exists w' b,
    ApiUsageExample.turn sdk output_dir n (i, input_image) w = (Ok tt, w') /\
    stdout w' = (stdout w ++ b)%list /\
    turn_lines i n input_image b.
Proof.
  unfold ApiUsageExample.turn.
  unfold mbind at 1, M_bind at 1, bind at 1, path_exists.
  destruct (negb _).
  { eexists _, _. split; [done|]. split; [done|]. constructor. }
  unfold mbind at 1, M_bind at 1, bind at 1, print at 1, try_except.
  set (w1 := with_stdout _ w).
  destruct (process_lines sdk output_dir i input_image w1)
    as (r & w2 & -> & [[-> Hs]|(e & -> & He & Hs)]).
  - eexists _, _. split; [done|]. split; [|apply turn_completed].
    rewrite Hs. simpl. by rewrite <- app_assoc.
  - rewrite He. eexists _, _. split; [done|]. split; [|by apply (turn_failed _ _ _ e)].
    simpl. rewrite Hs. simpl. by rewrite <- app_assoc.
Qed.

Lemma for_each_turn_prints sdk output_dir n (l : list string) : forall k w,
  exists w' blocks,
    for_each (zip (seq k (length l)) l) (ApiUsageExample.turn sdk output_dir n) w
    = (Ok tt, w') /\
    stdout w' = (stdout w ++ concat blocks)%list /\
    Forall2 (fun item b => turn_lines item.1 n item.2 b)
            (zip (seq k (length l)) l) blocks.
Proof.
  induction l as [|x l IH]; intros k w.
  - exists w, []. split; [done|]. split; [by rewrite app_nil_r|constructor].
  - change (zip (seq k (length (x :: l))) (x :: l))
      with ((k, x) :: zip (seq (S k) (length l)) l).
    change (for_each ((k, x) :: ?t) ?body w)
      with (bind (body (k, x)) (fun _ => for_each t body) w).
    unfold bind.
    destruct (turn_prints sdk output_dir n k x w) as (w1 & b & -> & Hs1 & Hb).
    destruct (IH (S k) w1) as (w2 & blocks & -> & Hs2 & Hbs).
    exists w2, (b :: blocks). split; [done|]. split.
    + rewrite Hs2, Hs1. simpl. by rewrite <- app_assoc.
    + by constructor.
Qed.

(** With any facade and any list of inputs, in a state in which the
    output directory can be made, the batch loop runs to its end and
    prints, between its first and its last line, one group of lines for
    every input, in the order of the list: each input is skipped, or
    announced with its position and then completed or reported as failed
    with the exception that was caught.  No input is left out and none
    ends the run. *)
Theorem batch_loop_lines (sdk : gmap string pyval) (images : list string)
  (w : world) :
  (forall c, fs w !! "batch_output" <> Some (File c)) ->
  exists w' blocks,
    ApiUsageExample.batch_loop sdk images w = (Ok tt, w') /\
    stdout w' = (stdout w ++ [batch_start] ++ concat blocks ++ [batch_done])%list /\
    Forall2 (fun item b => turn_lines item.1 (length images) item.2 b)
            (ApiUsageExample.enumerate images) blocks.
Proof.
  intros Hd. unfold ApiUsageExample.batch_loop, ApiUsageExample.enumerate.
  unfold_M. rewrite makedirs_exist_ok.
  destruct (fs w !! "batch_output") as [[|c]|] eqn:Hb; [| by destruct (Hd c) |].
  - destruct (for_each_turn_prints sdk "batch_output" (length images) images 0
                (with_stdout (stdout w ++ [batch_start]) w))
      as (w2 & blocks & -> & Hs & Hbs).
    eexists _, blocks. split; [done|]. split; [|done].
    simpl. rewrite Hs. simpl. by rewrite <- !app_assoc.
  - match goal with |- context [for_each _ _ ?w1] =>
      destruct (for_each_turn_prints sdk "batch_output" (length images) images 0 w1)
        as (w2 & blocks & -> & Hs & Hbs) end.
    eexists _, blocks. split; [done|]. split; [|done].
    simpl. rewrite Hs. simpl. by rewrite <- !app_assoc.
Qed.

Lemma batch_loop_lines_witness :
  exists w' blocks,
    ApiUsageExample.batch_loop (MiragicSDK.__init__ (PStr "k"))
      ApiUsageExample.input_images Sample.second_missing = (Ok tt, w') /\
    stdout w'
    = (stdout Sample.second_missing ++ [batch_start] ++ concat blocks
         ++ [batch_done])%list /\
    Forall2 (fun item b => turn_lines item.1 3 item.2 b)
            (ApiUsageExample.enumerate ApiUsageExample.input_images) blocks.
Proof.
  apply (batch_loop_lines (MiragicSDK.__init__ (PStr "k"))
           ApiUsageExample.input_images Sample.second_missing).
  intros c H. vm_compute in H. discriminate.
Defined.

(** * The scripts *)

Import Scripts.

Ltac unfold_S :=
  unfold mbind, Script_bind, mret, Script_ret, script_bind, script_ret,
    Scripts.print, Scripts.sys_exit, Scripts.path_exists in *.

Lemma run_command_spec command description st :
  let c := shell st command (cwd st) in
  exists st',
    run_command command description st = (Done (returncode c =? 0)%Z, st') /\
    cwd st' = cwd_after c /\ shell st' = shell st /\
    ran st' = (ran st ++ [(command, returncode c)])%list /\
    stdin st' = stdin st.
Proof.
  simpl. unfold run_command, subprocess_run. unfold_S. simpl.
  destruct (returncode _ =? 0)%Z; [destruct (String.eqb _ "")|];
    eexists; repeat split.
Qed.

(** The loop of [build_package] and [install_dev_dependencies] runs its
    commands in order and stops at the first one that fails: it returns
    [True] exactly when every command was run and returned 0, and with
    [False] the failed command is the last one run; what follows it in
    the list is never run.  The loop reads no input and never exits. *)
Theorem run_all_stops_at_first_failure (commands : list (string * string))
  (st : state) :
  exists (b : bool) st' new,
    run_all commands st = (Done b, st') /\
    ran st' = (ran st ++ new)%list /\
    stdin st' = stdin st /\ shell st' = shell st /\
    new.*1 `prefix_of` commands.*1 /\
    if b then new.*1 = commands.*1 /\ Forall (fun e => e.2 = 0) new
    else exists before c rc,
           new = (before ++ [(c, rc)])%list /\ rc <> 0 /\
           Forall (fun e => e.2 = 0) before.
Proof.
  revert st. induction commands as [|[c d] commands IH]; intros st.
  - exists true, st, []. repeat split; try done. by rewrite app_nil_r.
  - cbn [run_all]. unfold mbind at 1, Script_bind at 1, script_bind at 1.
    destruct (run_command_spec c d st) as (st1 & -> & Hc & Hsh & Hr & Hi).
    destruct (returncode _ =? 0)%Z eqn:Hrc; simpl.
    + destruct (IH st1) as (b & st' & new & -> & Hr' & Hi' & Hsh' & Hp & Hb).
      exists b, st', ((c, returncode (shell st c (cwd st))) :: new).
      split; [done|]. split; [by rewrite Hr', Hr, <- app_assoc|].
      split; [congruence|]. split; [congruence|].
      split; [by apply prefix_cons|].
      apply Z.eqb_eq in Hrc. destruct b.
      * destruct Hb as [Hn Hf]. split; [|by constructor].
        rewrite !fmap_cons. simpl. by f_equal.
      * destruct Hb as (before & c' & rc & -> & Hne & Hf).
        exists ((c, returncode (shell st c (cwd st))) :: before), c', rc.
        split; [done|]. split; [done|by constructor].
    + exists false, st1, [(c, returncode (shell st c (cwd st)))].
      split; [done|]. split; [done|]. split; [done|]. split; [done|].
      split; [apply prefix_cons, prefix_nil|].
      exists [], c, (returncode (shell st c (cwd st))).
      split; [done|]. split; [by apply Z.eqb_neq|constructor].
Qed.

(** ** Cleaning the build artifacts *)

Lemma filter_ext_in {A} (P1 P2 : A -> Prop)
  `{!forall x, Decision (P1 x), !forall x, Decision (P2 x)} (l : list A) :
  (forall x, x ∈ l -> (P1 x <-> P2 x)) -> filter P1 l = filter P2 l.
Proof.
  induction l as [|a l IH]; intros Hiff; [done|].
  rewrite !filter_cons.
  rewrite IH by (intros x Hx; apply Hiff; by right).
  apply decide_ext, Hiff. by left.
Qed.

Lemma filter_none {A} (P : A -> Prop) `{!forall x, Decision (P x)} (l : list A) :
  (forall x, x ∈ l -> ~ P x) -> filter P l = [].
Proof.
  induction l as [|a l IH]; intros Hno; [done|].
  rewrite filter_cons_False by (apply Hno; by left).
  apply IH. intros x Hx. apply Hno. by right.
Qed.

Lemma entry_is_Some name (l : list (string * node)) :
  is_Some (entry name l) <-> name ∈ l.*1.
Proof.
  unfold entry. induction l as [|[n x] l IH]; simpl.
  - split; [by intros [? ?]|by intros ?%elem_of_nil].
  - destruct (String.eqb_spec n name) as [->|Hne]; simpl.
    + split; [intros _; by left|eauto].
    + rewrite IH. split; [by right|].
      by intros [?|?]%elem_of_cons.
Qed.

Lemma filter_absent name (l : list (string * node)) :
  name ∉ l.*1 -> filter (fun e => e.1 <> name) l = l.
Proof.
  induction l as [|[n x] l IH]; [done|]. intros Hn.
  rewrite filter_cons_True.
  - rewrite IH; [done|]. intros ?. apply Hn. by right.
  - simpl. intros ->. apply Hn. by left.
Qed.

Lemma clean_path_spec path st :
  exists st',
    Build.clean_path path st = (Done tt, st') /\
    cwd st' = filter (fun e => e.1 <> path) (cwd st) /\
    shell st' = shell st /\ ran st' = ran st /\ stdin st' = stdin st.
Proof.
  unfold Build.clean_path.
  destruct (entry path (cwd st)) as [[listing|size]|] eqn:He;
    [eexists; by repeat split..|].
  exists st. repeat split; try done.
  symmetry. apply filter_absent. rewrite <- entry_is_Some, He. by intros [? ?].
Qed.

Lemma each_clean_path names : forall st,
  exists st',
    each names Build.clean_path st = (Done tt, st') /\
    cwd st' = filter (fun e => e.1 ∉ names) (cwd st) /\
    shell st' = shell st /\ ran st' = ran st /\ stdin st' = stdin st.
Proof.
  induction names as [|n names IH]; intros st.
  - exists st. repeat split; try done. symmetry.
    induction (cwd st) as [|e l IHl]; [done|].
    rewrite filter_cons_True; [by rewrite IHl|]. by intros ?%elem_of_nil.
  - cbn [each]. unfold mbind at 1, Script_bind at 1, script_bind at 1.
    destruct (clean_path_spec n st) as (st1 & -> & Hc & Hs & Hr & Hi).
    destruct (IH st1) as (st2 & -> & Hc2 & Hs2 & Hr2 & Hi2).
    exists st2. split; [done|]. split; [|repeat split; congruence].
    rewrite Hc2, Hc, list_filter_filter. apply list_filter_iff.
    intros e. rewrite elem_of_cons. tauto.
Qed.

(** What a pattern matches. *)
Lemma clean_pattern_spec p st :
  exists st',
    Build.clean_pattern p st = (Done tt, st') /\
    cwd st' = filter (fun e => ~ matches p e.1) (cwd st) /\
    shell st' = shell st /\ ran st' = ran st /\ stdin st' = stdin st.
Proof.
  unfold Build.clean_pattern.
  destruct (each_clean_path (glob p (cwd st)) st) as (st' & -> & Hc & Hrest).
  exists st'. split; [done|]. split; [|done].
  rewrite Hc. apply filter_ext_in. intros e He. destruct p as [name|suffix]; simpl.
  - case_bool_decide as Hn.
    + rewrite list_elem_of_singleton. done.
    + split; [|by intros _ ?%elem_of_nil]. intros _ Heq.
      apply Hn, entry_is_Some. rewrite <- Heq. by apply list_elem_of_fmap_2.
  - split.
    + intros Hn Hs. apply Hn. apply (list_elem_of_fmap_2 fst).
      by apply list_elem_of_filter.
    + intros Hs (e' & He' & [Hs' _]%list_elem_of_filter)%list_elem_of_fmap.
      apply Hs. by rewrite He'.
Qed.

Lemma clean_build_dirs_spec st0 :
  exists st',
    Build.clean_build_dirs st0 = (Done tt, st') /\
    cwd st' = filter (fun e => ~ artifact e.1) (cwd st0) /\
    shell st' = shell st0 /\ ran st' = ran st0 /\ stdin st' = stdin st0.
Proof.
  unfold Build.clean_build_dirs, Build.dirs_to_clean.
  unfold mbind at 1, Script_bind at 1, script_bind at 1, Scripts.print at 1.
  set (st1 := with_out _ st0). cbn [each].
  unfold mbind, Script_bind, script_bind.
  destruct (clean_pattern_spec (Exact "build") st1) as (sa & -> & Hca & Hsa & Hra & Hia).
  destruct (clean_pattern_spec (Exact "dist") sa) as (sb & -> & Hcb & Hsb & Hrb & Hib).
  destruct (clean_pattern_spec (Star ".egg-info") sb) as (sc & -> & Hcc & Hsc & Hrc & Hic).
  unfold st1 in *. simpl in Hca, Hsa, Hra, Hia.
  exists sc. split; [done|]. split; [|repeat split; congruence].
  rewrite Hcc, Hcb, Hca, !list_filter_filter. apply list_filter_iff.
  intros e. unfold artifact, matches. simpl. tauto.
Qed.

(** [clean_build_dirs] removes from the project directory exactly the
    entries named [build] or [dist] or ending in [.egg-info], files and
    directories alike, and keeps every other entry in place; it runs no
    command and reads no input.  Run again right away it finds nothing:
    it prints its first line and changes nothing. *)
Theorem clean_build_dirs_removes_artifacts (st : state) :
  exists st',
    Build.clean_build_dirs st = (Done tt, st') /\
    cwd st' = filter (fun e => ~ artifact e.1) (cwd st) /\
    shell st' = shell st /\ ran st' = ran st /\ stdin st' = stdin st /\
    Build.clean_build_dirs st'
    = (Done tt,
       with_out (out st' ++ [say (nl ++ "🧹 Cleaning previous build artifacts...")])
         st').
Proof.
  destruct (clean_build_dirs_spec st) as (st' & Hrun & Hc & Hs & Hr & Hi).
  exists st'. repeat split; try done.
  assert (forall e, e ∈ cwd st' -> ~ artifact e.1) as Hno.
  { intros e. rewrite Hc. by intros [? _]%list_elem_of_filter. }
  assert (glob (Exact "build") (cwd st') = []) as H1.
  { simpl. rewrite bool_decide_eq_false_2; [done|].
    intros (e & Heq & He)%entry_is_Some%list_elem_of_fmap.
    apply (Hno e He). by left. }
  assert (glob (Exact "dist") (cwd st') = []) as H2.
  { simpl. rewrite bool_decide_eq_false_2; [done|].
    intros (e & Heq & He)%entry_is_Some%list_elem_of_fmap.
    apply (Hno e He). right. by left. }
  assert (glob (Star ".egg-info") (cwd st') = []) as H3.
  { simpl. rewrite filter_none; [done|]. intros e He Hs'. apply (Hno e He).
    right. by right. }
  unfold Build.clean_build_dirs, Build.dirs_to_clean, Build.clean_pattern.
  unfold_S. cbn [each]. unfold_S.
  set (st1 := with_out _ st'). change (cwd st1) with (cwd st').
  rewrite H1. cbn [each]. unfold_S. change (cwd st1) with (cwd st').
  rewrite H2. cbn [each]. unfold_S. change (cwd st1) with (cwd st').
  by rewrite H3.
Qed.

(** ** The check of the distribution files *)

Lemma with_out_with_out a b st : with_out a (with_out b st) = with_out a st.
Proof. done. Qed.

Lemma cwd_with_out a st : cwd (with_out a st) = cwd st.
Proof. done. Qed.

Lemma each_prints {A} (g : A -> printed) (l : list A) : forall st,
  each l (fun x st' => (Done tt, with_out (out st' ++ [g x]) st')) st
  = (Done tt, with_out (out st ++ map g l) st).
Proof.
  induction l as [|x l IH]; intros st; cbn [each map].
  - unfold_S. rewrite app_nil_r. by destruct st.
  - unfold mbind, Script_bind, script_bind. rewrite IH.
    cbn [out with_out]. by rewrite with_out_with_out, <- app_assoc.
Qed.

Lemma verify_package_spec st :
  exists st',
    Build.verify_package st
    = (Done (bool_decide (dist_files (cwd st) <> [])), st') /\
    only_prints st st'.
Proof.
  unfold Build.verify_package. unfold_S. unfold dist_files.
  cbv beta. rewrite !cwd_with_out.
  destruct (entry "dist" (cwd st)) as [[[|f l]|size]|] eqn:He; cbn -[each entry];
    rewrite ?cwd_with_out, ?He; cbn -[each entry];
    try (eexists; (split; [reflexivity|]); by repeat split).
  rewrite (each_prints (fun file => dist_file file.1 file.2)).
  eexists; (split; [reflexivity|]); by repeat split.
Qed.

Lemma check_dist_files_spec st :
  exists st',
    Upload.check_dist_files st
    = (Done (bool_decide (dist_files (cwd st) <> [])), st') /\
    only_prints st st'.
Proof.
  unfold Upload.check_dist_files. unfold_S. unfold dist_files.
  cbv beta. rewrite !cwd_with_out.
  destruct (entry "dist" (cwd st)) as [[[|f l]|size]|] eqn:He; cbn -[each entry];
    rewrite ?cwd_with_out, ?He; cbn -[each entry];
    try (eexists; (split; [reflexivity|]); by repeat split).
  rewrite (each_prints (fun file => say ("   - " ++ file.1))).
  eexists; (split; [reflexivity|]); by repeat split.
Qed.

(** [verify_package] and [check_dist_files] answer alike: [True] exactly
    when [dist] is a directory with at least one entry, so also [False]
    for a regular file named [dist].  Neither changes the project
    directory, runs a command or reads input; [verify_package], when it
    succeeds, prints after its two head lines one line per entry of
    [dist], in listing order, with the size of the entry. *)
Theorem dist_checks_agree (st : state) :
  exists (b : bool) st1 st2,
    Build.verify_package st = (Done b, st1) /\
    Upload.check_dist_files st = (Done b, st2) /\
    only_prints st st1 /\ only_prints st st2 /\
    (b = true <->
     exists listing, entry "dist" (cwd st) = Some (Directory listing) /\
                     listing <> []) /\
    (b = true ->
     out st1
     = (out st
        ++ [say (nl ++ "🔍 Verifying package...");
            say ("✅ Found " ++ str_nat (length (dist_files (cwd st)))
                 ++ " files in dist directory:")]
        ++ map (fun file => dist_file file.1 file.2) (dist_files (cwd st)))%list).
Proof.
  destruct (verify_package_spec st) as (st1 & Hv & H1).
  destruct (check_dist_files_spec st) as (st2 & Hc & H2).
  exists (bool_decide (dist_files (cwd st) <> [])), st1, st2.
  split; [done|]. split; [done|]. split; [done|]. split; [done|]. split.
  - rewrite bool_decide_eq_true. unfold dist_files.
    destruct (entry "dist" (cwd st)) as [[listing|size]|].
    + split; [eauto|]. by intros (? & [= <-] & ?).
    + split; [done|]. by intros (? & [=] & _).
    + split; [done|]. by intros (? & [=] & _).
  - intros Hb%bool_decide_eq_true. revert Hv.
    unfold Build.verify_package. unfold_S. unfold dist_files in *.
    cbv beta. rewrite !cwd_with_out.
    destruct (entry "dist" (cwd st)) as [[[|f l]|size]|] eqn:He; try done.
    cbn -[each entry]. rewrite ?cwd_with_out, ?He. cbn -[each entry].
    rewrite (each_prints (fun file => dist_file file.1 file.2)).
    intros [= <-]. simpl. by rewrite <- !app_assoc.
Qed.

(** ** The three [main] functions *)

Ltac step_bind := unfold mbind at 1, Script_bind at 1, script_bind at 1.

Lemma print_spec s st :
  Scripts.print s st = (Done tt, with_out (out st ++ [say s]) st).
Proof. done. Qed.

Lemma path_exists_spec name st :
  Scripts.path_exists name st
  = (Done (bool_decide (is_Some (entry name (cwd st)))), st).
Proof. done. Qed.

(** [build.py], case by case.  Without [setup.py] the script exits with
    status 1 and has removed nothing and run nothing.  Otherwise the old
    artifacts are removed first and the upgrade of the build tools runs
    in the cleaned directory; the build runs only if the upgrade
    returned 0, in the directory the upgrade left, and is the last
    command.  The script ends normally exactly when both returned 0 and
    [dist] holds an entry afterwards; in every other case it exits with
    status 1.  It never reads input. *)
Theorem build_main_outcome (st : state) :
  let c1 := "python -m pip install --upgrade build" in
  let c2 := "python -m build" in
  let d1 := shell st c1 (filter (fun e => ~ artifact e.1) (cwd st)) in
  let d2 := shell st c2 (cwd_after d1) in
  exists r st' new,
    Build.main st = (r, st') /\
    ran st' = (ran st ++ new)%list /\
    stdin st' = stdin st /\
    match entry "setup.py" (cwd st) with
    | None => r = Stop (Exit 1) /\ new = [] /\ cwd st' = cwd st
    | Some _ =>
        if negb (returncode d1 =? 0)%Z then
          r = Stop (Exit 1) /\ new = [(c1, returncode d1)] /\
          cwd st' = cwd_after d1
        else if negb (returncode d2 =? 0)%Z then
          r = Stop (Exit 1) /\ new = [(c1, 0); (c2, returncode d2)] /\
          cwd st' = cwd_after d2
        else
          new = [(c1, 0); (c2, 0)] /\ cwd st' = cwd_after d2 /\
          r = if bool_decide (dist_files (cwd_after d2) <> [])
              then Done tt else Stop (Exit 1)
    end.
Proof.
  intros c1 c2 d1 d2. unfold Build.main.
  step_bind. rewrite print_spec. step_bind. rewrite path_exists_spec, cwd_with_out.
  destruct (entry "setup.py" (cwd st)) as [n|] eqn:Hsetup; cbn [negb bool_decide].
  2:{ rewrite bool_decide_eq_false_2 by (by intros [? ?]). cbn [negb].
      step_bind. rewrite print_spec. unfold Scripts.sys_exit.
      eexists _, _, []. split; [reflexivity|]. cbn.
      rewrite app_nil_r. by repeat split. }
  rewrite bool_decide_eq_true_2 by eauto. cbn [negb].
  step_bind.
  destruct (clean_build_dirs_spec (with_out (out st ++ [say "🚀 Starting Miragic SDK build process..."]) st))
    as (s2 & -> & Hc2 & Hs2 & Hr2 & Hi2).
  rewrite cwd_with_out in Hc2. cbn in Hs2, Hr2, Hi2.
  step_bind. unfold Build.build_package. cbn [run_all]. step_bind.
  fold c1. fold c2.
  destruct (run_command_spec c1 "Installing/upgrading build tools" s2)
    as (s3 & -> & Hc3 & Hs3 & Hr3 & Hi3).
  rewrite Hs2, Hc2 in Hc3, Hr3. rewrite Hs2, Hc2. fold d1 in Hc3, Hr3 |- *.
  destruct (returncode d1 =? 0)%Z eqn:Hrc1; cbn [negb].
  2:{ cbn. eexists _, _, [(c1, returncode d1)]. split; [reflexivity|]. cbn.
      repeat split; try done; congruence. }
  apply Z.eqb_eq in Hrc1. step_bind.
  destruct (run_command_spec c2 "Building package" s3)
    as (s4 & -> & Hc4 & Hs4 & Hr4 & Hi4).
  rewrite Hs3, Hs2, Hc3 in Hc4, Hr4. rewrite Hs3, Hs2, Hc3. fold d2 in Hc4, Hr4 |- *.
  assert (ran s4 = (ran st ++ [(c1, returncode d1); (c2, returncode d2)])%list)
    as Hran by (rewrite Hr4, Hr3, Hr2; by rewrite <- app_assoc).
  rewrite Hrc1 in Hran.
  destruct (returncode d2 =? 0)%Z eqn:Hrc2; cbn [negb].
  2:{ cbn. eexists _, _, [(c1, 0); (c2, returncode d2)]. split; [reflexivity|]. cbn.
      repeat split; try done; congruence. }
  apply Z.eqb_eq in Hrc2. rewrite Hrc2 in Hran.
  cbn [mret Script_ret script_ret negb]. step_bind.
  destruct (verify_package_spec s4) as (s5 & -> & Hc5 & Hs5 & Hr5 & Hi5).
  rewrite Hc4.
  case_bool_decide as Hd; cbn [negb];
    (cbn; eexists _, _, [(c1, 0); (c2, 0)]; split; [reflexivity|]; cbn;
     repeat split; try done; congruence).
Qed.

Lemma upload_to_testpypi_spec st :
  let c := shell st Upload.testpypi_command (cwd st) in
  exists st',
    Upload.upload_to_testpypi st = (Done (returncode c =? 0)%Z, st') /\
    cwd st' = cwd_after c /\ shell st' = shell st /\
    ran st' = (ran st ++ [(Upload.testpypi_command, returncode c)])%list /\
    stdin st' = stdin st.
Proof.
  simpl. unfold Upload.upload_to_testpypi. step_bind. rewrite print_spec. step_bind.
  destruct (run_command_spec Upload.testpypi_command "Uploading to TestPyPI"
              (with_out (out st ++ [say (nl ++ "📤 Uploading to TestPyPI...")]) st))
    as (s1 & -> & Hc & Hs & Hr & Hi).
  cbn in Hc, Hs, Hr, Hi. cbn [shell cwd with_out].
  destruct (returncode _ =? 0)%Z; cbn; eexists; repeat split; done.
Qed.

Lemma upload_to_pypi_spec st :
  let c := shell st Upload.pypi_command (cwd st) in
  exists st',
    Upload.upload_to_pypi st = (Done (returncode c =? 0)%Z, st') /\
    cwd st' = cwd_after c /\ shell st' = shell st /\
    ran st' = (ran st ++ [(Upload.pypi_command, returncode c)])%list /\
    stdin st' = stdin st.
Proof.
  simpl. unfold Upload.upload_to_pypi. step_bind. rewrite print_spec. step_bind.
  destruct (run_command_spec Upload.pypi_command "Uploading to PyPI"
              (with_out (out st ++ [say (nl ++ "📤 Uploading to PyPI...")]) st))
    as (s1 & -> & Hc & Hs & Hr & Hi).
  cbn in Hc, Hs, Hr, Hi. cbn [shell cwd with_out].
  destruct (returncode _ =? 0)%Z; cbn; eexists; repeat split; done.
Qed.

(** *** What the steps of [upload.py] write *)

Lemma prompts_app a b : prompts (a ++ b) = (prompts a ++ prompts b)%list.
Proof. apply omap_app. Qed.

Lemma an_ret {A} (a : A) : asks_nothing (mret a).
Proof. intros st. exists []. by rewrite app_nil_r. Qed.

Lemma an_print s : asks_nothing (Scripts.print s).
Proof. intros st. by exists [say s]. Qed.

Lemma an_bind {A B} (c : Script A) (k : A -> Script B) :
  asks_nothing c -> (forall a, asks_nothing (k a)) -> asks_nothing (c ≫= k).
Proof.
  intros Hc Hk st. unfold mbind, Script_bind, script_bind.
  destruct (Hc st) as (o1 & Ho1 & Hp1).
  destruct (c st) as [[a|x] st1]; simpl in Ho1.
  - destruct (Hk a st1) as (o2 & Ho2 & Hp2). exists (o1 ++ o2)%list.
    rewrite Ho2, Ho1, prompts_app, Hp1, Hp2. by rewrite <- app_assoc.
  - by exists o1.
Qed.

Lemma an_each {A} (l : list A) (body : A -> Script unit) :
  (forall x, asks_nothing (body x)) -> asks_nothing (each l body).
Proof.
  intros Hb. induction l as [|x l IH]; cbn [each]; [apply an_ret|].
  apply an_bind; [apply Hb|]. intros _. apply IH.
Qed.

Lemma an_run_command command description :
  asks_nothing (run_command command description).
Proof.
  unfold run_command. apply an_bind; [apply an_print|]. intros _.
  apply an_bind; [intros st; exists []; by rewrite app_nil_r|]. intros c.
  destruct (returncode c =? 0)%Z.
  - apply an_bind; [apply an_print|]. intros _. apply an_bind; [|intros; apply an_ret].
    destruct (String.eqb _ ""); [apply an_ret|apply an_print].
  - apply an_bind; [apply an_print|]. intros _.
    apply an_bind; [apply an_print|]. intros _. apply an_ret.
Qed.

Lemma an_upload_to_testpypi : asks_nothing Upload.upload_to_testpypi.
Proof.
  unfold Upload.upload_to_testpypi. apply an_bind; [apply an_print|]. intros _.
  apply an_bind; [apply an_run_command|]. intros [|]; cbn [negb]; [|apply an_ret].
  repeat (apply an_bind; [apply an_print|]; intros _). apply an_ret.
Qed.

Lemma an_upload_to_pypi : asks_nothing Upload.upload_to_pypi.
Proof.
  unfold Upload.upload_to_pypi. apply an_bind; [apply an_print|]. intros _.
  apply an_bind; [apply an_run_command|]. intros [|]; cbn [negb]; [|apply an_ret].
  repeat (apply an_bind; [apply an_print|]; intros _). apply an_ret.
Qed.

Lemma an_check_dist_files : asks_nothing Upload.check_dist_files.
Proof.
  unfold Upload.check_dist_files. apply an_bind; [apply an_print|]. intros _.
  apply an_bind; [intros st; exists []; by rewrite app_nil_r|]. intros [|]; cbn [negb].
  - intros st. destruct (dist_files (cwd st)) as [|f l].
    + apply (an_bind _ _ (an_print _)). intros _. apply an_ret.
    + apply (an_bind _ _ (an_print _)). intros _.
      apply an_bind; [|intros; apply an_ret].
      apply an_each. intros x. apply an_print.
  - apply an_bind; [apply an_print|]. intros _. apply an_ret.
Qed.

(** [upload.py], case by case.  Without [pyproject.toml] or without an
    entry in [dist] the script exits with status 1 before it asks:
    nothing is run, no input is read and no prompt is written.
    Otherwise it asks once for the choice, and the answer counts with
    the white space around it removed.  On 1 it runs the upload to
    TestPyPI and on 2 the upload to PyPI, and nothing else.  On 3 it
    runs the upload to TestPyPI, and only if that returned 0 it asks a
    second time, reads a second line and runs the upload to PyPI, in
    the directory the first upload left.  On any other answer it runs
    nothing and exits with status 1.  After an upload the script ends
    normally if the last upload returned 0 and exits with status 1 if
    not; at the end of the input it stops with [EOFError]. *)
Theorem upload_main_outcome (st : state) :
  let test := Upload.testpypi_command in
  let pypi := Upload.pypi_command in
  let ask := nl ++ "Enter your choice (1/2/3): " in
  let go_on := "Press Enter to continue with PyPI upload..." in
  let d_test := shell st test (cwd st) in
  let d_pypi := shell st pypi (cwd st) in
  let d_both := shell st pypi (cwd_after d_test) in
  let finish rc := if (rc =? 0)%Z then Done tt else Stop (Exit 1) in
  exists r st' new o,
    Upload.main st = (r, st') /\
    ran st' = (ran st ++ new)%list /\
    out st' = (out st ++ o)%list /\
    ((entry "pyproject.toml" (cwd st) = None \/ dist_files (cwd st) = []) /\
     r = Stop (Exit 1) /\ new = [] /\ stdin st' = stdin st /\ prompts o = []
     \/
     is_Some (entry "pyproject.toml" (cwd st)) /\ dist_files (cwd st) <> [] /\
     (stdin st = [] /\ r = Stop EOFError /\ new = [] /\ prompts o = [ask]
      \/
      exists answer rest,
        stdin st = answer :: rest /\
        (str_strip answer = "1" /\
         new = [(test, returncode d_test)] /\ r = finish (returncode d_test) /\
         stdin st' = rest /\ prompts o = [ask]
         \/
         str_strip answer = "2" /\
         new = [(pypi, returncode d_pypi)] /\ r = finish (returncode d_pypi) /\
         stdin st' = rest /\ prompts o = [ask]
         \/
         str_strip answer = "3" /\
         (returncode d_test <> 0 /\
          new = [(test, returncode d_test)] /\ r = Stop (Exit 1) /\
          stdin st' = rest /\ prompts o = [ask]
          \/
          returncode d_test = 0 /\ rest = [] /\
          new = [(test, 0)] /\ r = Stop EOFError /\
          stdin st' = [] /\ prompts o = [ask; go_on]
          \/
          returncode d_test = 0 /\
          exists go rest',
            rest = go :: rest' /\
            new = [(test, 0); (pypi, returncode d_both)] /\
            r = finish (returncode d_both) /\
            stdin st' = rest' /\ prompts o = [ask; go_on])
         \/
         str_strip answer <> "1" /\ str_strip answer <> "2" /\
         str_strip answer <> "3" /\
         new = [] /\ r = Stop (Exit 1) /\
         stdin st' = rest /\ prompts o = [ask]))).
Proof.
  intros test pypi ask go_on d_test d_pypi d_both finish.
  subst test pypi finish. unfold Upload.main.
  step_bind. rewrite print_spec. step_bind. rewrite path_exists_spec, cwd_with_out.
  destruct (entry "pyproject.toml" (cwd st)) as [n|] eqn:Hproj.
  2:{ rewrite bool_decide_eq_false_2 by (by intros [? ?]). cbn [negb].
      step_bind. rewrite print_spec. unfold Scripts.sys_exit.
      eexists _, _, [], _. split; [reflexivity|]. cbn. rewrite app_nil_r.
      split; [done|]. split; [by rewrite <- app_assoc|]. left. auto. }
  rewrite bool_decide_eq_true_2 by eauto. cbn [negb]. step_bind.
  set (st0 := with_out (out st ++ [say "🚀 Starting Miragic SDK upload process..."]) st).
  destruct (an_check_dist_files st0) as (o1 & Ho1 & Hp1).
  destruct (check_dist_files_spec st0) as (s1 & Hrun1 & Hc1 & Hs1 & Hr1 & Hi1).
  rewrite Hrun1 in Ho1 |- *. clear Hrun1. subst st0.
  cbn in Hc1, Hs1, Hr1, Hi1, Ho1. rewrite cwd_with_out.
  case_bool_decide as Hd; cbn [negb].
  2:{ unfold Scripts.sys_exit. eexists _, _, [], _. split; [reflexivity|].
      rewrite app_nil_r. split; [done|].
      split; [rewrite Ho1; by rewrite <- app_assoc|]. left.
      split; [right; by destruct (dist_files (cwd st)); [|destruct Hd]|].
      rewrite prompts_app, Hp1. auto. }
  do 4 (step_bind; rewrite print_spec).
  step_bind. unfold input at 1. cbn [stdin with_out out cwd shell ran].
  rewrite Hi1. fold ask.
  destruct (stdin st) as [|answer rest] eqn:Hin.
  { eexists _, _, [], _. split; [reflexivity|]. cbn. rewrite Hr1, app_nil_r.
    split; [done|]. split; [rewrite Ho1; rewrite <- !app_assoc; reflexivity|].
    right. split; [eauto|]. split; [done|]. left.
    rewrite !prompts_app, Hp1. auto. }
  set (s2 := {| cwd := cwd s1 |}).
  assert (cwd s2 = cwd st /\ shell s2 = shell st /\ ran s2 = ran st /\ stdin s2 = rest)
    as (Hc2 & Hs2 & Hr2 & Hi2) by (by cbn).
  assert (exists o2, out s2 = (out st ++ o2)%list /\ prompts o2 = [ask])
    as (o2 & Ho2 & Hp2).
  { eexists. split; [cbn; rewrite Ho1; rewrite <- !app_assoc; reflexivity|].
    by rewrite !prompts_app, Hp1. }
  clearbody s2. cbn zeta.
  step_bind.
  destruct (String.eqb_spec (str_strip answer) "1") as [H1|H1].
  { step_bind.
    destruct (an_upload_to_testpypi s2) as (o3 & Ho3 & Hp3).
    destruct (upload_to_testpypi_spec s2) as (s3 & Hrun3 & Hc3 & Hs3 & Hr3 & Hi3).
    rewrite Hrun3 in Ho3 |- *. clear Hrun3. cbn [snd] in Ho3.
    rewrite Hs2, Hc2 in *. fold d_test in Hc3, Hr3 |- *.
    destruct (returncode d_test =? 0)%Z eqn:Hrc; cbn [negb];
      (eexists _, _, [(Upload.testpypi_command, returncode d_test)], _;
       split; [reflexivity|]; split; [cbn; congruence|];
       split; [cbn; rewrite ?Ho3, Ho2, <- ?app_assoc; reflexivity|];
       right; split; [eauto|]; split; [done|]; right;
       exists answer, rest; split; [done|]; left;
       rewrite ?prompts_app, Hp2, Hp3; cbn; repeat split; try done; congruence). }
  destruct (String.eqb_spec (str_strip answer) "2") as [H2|H2].
  { step_bind.
    destruct (an_upload_to_pypi s2) as (o3 & Ho3 & Hp3).
    destruct (upload_to_pypi_spec s2) as (s3 & Hrun3 & Hc3 & Hs3 & Hr3 & Hi3).
    rewrite Hrun3 in Ho3 |- *. clear Hrun3. cbn [snd] in Ho3.
    rewrite Hs2, Hc2 in *. fold d_pypi in Hc3, Hr3 |- *.
    destruct (returncode d_pypi =? 0)%Z eqn:Hrc; cbn [negb];
      (eexists _, _, [(Upload.pypi_command, returncode d_pypi)], _;
       split; [reflexivity|]; split; [cbn; congruence|];
       split; [cbn; rewrite ?Ho3, Ho2, <- ?app_assoc; reflexivity|];
       right; split; [eauto|]; split; [done|]; right;
       exists answer, rest; split; [done|]; right; left;
       rewrite ?prompts_app, Hp2, Hp3; cbn; repeat split; try done; congruence). }
  destruct (String.eqb_spec (str_strip answer) "3") as [H3|H3].
  2:{ step_bind. rewrite print_spec. unfold Scripts.sys_exit.
      eexists _, _, [], _. split; [reflexivity|]. cbn. rewrite Hr2, app_nil_r.
      split; [done|]. split; [rewrite Ho2, <- ?app_assoc; reflexivity|].
      right. split; [eauto|]. split; [done|]. right.
      exists answer, rest. split; [done|]. do 3 right.
      rewrite prompts_app, Hp2. cbn. repeat split; try done; congruence. }
  step_bind.
  destruct (an_upload_to_testpypi s2) as (o3 & Ho3 & Hp3).
  destruct (upload_to_testpypi_spec s2) as (s3 & Hrun3 & Hc3 & Hs3 & Hr3 & Hi3).
  rewrite Hrun3 in Ho3 |- *. clear Hrun3. cbn [snd] in Ho3.
  rewrite Hs2, Hc2 in *. fold d_test in Hc3, Hr3 |- *.
  destruct (returncode d_test =? 0)%Z eqn:Hrc1; cbn [negb].
  2:{ apply Z.eqb_neq in Hrc1.
      eexists _, _, [(Upload.testpypi_command, returncode d_test)], _.
      split; [reflexivity|]. split; [cbn; congruence|].
      split; [rewrite Ho3, Ho2, <- ?app_assoc; reflexivity|].
      right. split; [eauto|]. split; [done|]. right.
      exists answer, rest. split; [done|]. do 2 right. left. split; [done|].
      left. rewrite prompts_app, Hp2, Hp3. cbn. repeat split; try done; congruence. }
  apply Z.eqb_eq in Hrc1. rewrite Hrc1 in Hr3.
  step_bind. rewrite print_spec. step_bind. unfold input at 1.
  cbn [stdin with_out out cwd shell ran]. rewrite Hi3, Hi2. fold go_on.
  destruct rest as [|go rest'].
  { eexists _, _, [(Upload.testpypi_command, 0)], _.
    split; [reflexivity|]. split; [cbn; congruence|].
    split; [cbn; rewrite Ho3, Ho2, <- ?app_assoc; reflexivity|].
    right. split; [eauto|]. split; [done|]. right.
    exists answer, []. split; [done|]. do 2 right. left. split; [done|].
    right. left. rewrite !prompts_app, Hp2, Hp3. cbn. repeat split; try done; congruence. }
  set (s4 := {| cwd := cwd s3 |}).
  assert (cwd s4 = cwd s3 /\ shell s4 = shell st /\ ran s4 = ran s3 /\ stdin s4 = rest')
    as (Hc4 & Hs4 & Hr4 & Hi4) by (by cbn).
  assert (exists o4, out s4 = (out st ++ o4)%list /\ prompts o4 = [ask; go_on])
    as (o4 & Ho4 & Hp4).
  { eexists. split; [cbn; rewrite Ho3, Ho2, <- ?app_assoc; reflexivity|].
    by rewrite !prompts_app, Hp2, Hp3. }
  clearbody s4. step_bind.
  destruct (an_upload_to_pypi s4) as (o5 & Ho5 & Hp5).
  destruct (upload_to_pypi_spec s4) as (s5 & Hrun5 & Hc5 & Hs5 & Hr5 & Hi5).
  rewrite Hrun5 in Ho5 |- *. clear Hrun5. cbn [snd] in Ho5.
  rewrite Hs4, Hc4, Hc3 in Hc5, Hr5. rewrite Hs4, Hc4, Hc3. fold d_both in Hc5, Hr5 |- *.
  assert (ran s5 = (ran st ++ [(Upload.testpypi_command, 0);
                               (Upload.pypi_command, returncode d_both)])%list) as Hran
    by (rewrite Hr5, Hr4, Hr3, Hr2; by rewrite <- app_assoc).
  destruct (returncode d_both =? 0)%Z eqn:Hrc2; cbn [negb];
    (eexists _, _, [(Upload.testpypi_command, 0);
                    (Upload.pypi_command, returncode d_both)], _;
     split; [reflexivity|]; split; [cbn; congruence|];
     split; [cbn; rewrite ?Ho5, Ho4, <- ?app_assoc; reflexivity|];
     right; split; [eauto|]; split; [done|]; right;
     exists answer, (go :: rest'); split; [done|]; do 2 right; left;
     split; [done|]; do 2 right; split; [done|]; exists go, rest';
     rewrite ?prompts_app, Hp4, Hp5; cbn; repeat split; try done; congruence).
Qed.

(** [install_dev.py], case by case.  Without [setup.py] the script exits
    with status 1 and has run nothing.  It runs the upgrade of pip, the
    installation of the requirements and the editable installation in
    this order, each in the directory the one before left and only if
    the one before returned 0; the first that fails is the last command
    run and the script exits with status 1.  The tests are run only
    after all three have returned 0, and only if there is an entry
    [tests] then; their result does not count: once the three
    installations have returned 0 the script ends normally, also when
    the tests fail.  It never reads input. *)
Theorem install_main_ignores_test_failures (st : state) :
  let i1 := "python -m pip install --upgrade pip" in
  let i2 := "python -m pip install -r requirements-dev.txt" in
  let i3 := "python -m pip install -e ." in
  let t := "python -m pytest tests/ -v" in
  let d1 := shell st i1 (cwd st) in
  let d2 := shell st i2 (cwd_after d1) in
  let d3 := shell st i3 (cwd_after d2) in
  let d4 := shell st t (cwd_after d3) in
  exists r st' new,
    InstallDev.main st = (r, st') /\
    ran st' = (ran st ++ new)%list /\
    stdin st' = stdin st /\
    match entry "setup.py" (cwd st) with
    | None => r = Stop (Exit 1) /\ new = [] /\ cwd st' = cwd st
    | Some _ =>
        if negb (returncode d1 =? 0)%Z then
          r = Stop (Exit 1) /\ new = [(i1, returncode d1)]
        else if negb (returncode d2 =? 0)%Z then
          r = Stop (Exit 1) /\ new = [(i1, 0); (i2, returncode d2)]
        else if negb (returncode d3 =? 0)%Z then
          r = Stop (Exit 1) /\ new = [(i1, 0); (i2, 0); (i3, returncode d3)]
        else
          r = Done tt /\
          new = if bool_decide (is_Some (entry "tests" (cwd_after d3)))
                then [(i1, 0); (i2, 0); (i3, 0); (t, returncode d4)]
                else [(i1, 0); (i2, 0); (i3, 0)]
    end.
Proof.
  intros i1 i2 i3 t d1 d2 d3 d4. unfold InstallDev.main.
  step_bind. rewrite print_spec. step_bind. rewrite path_exists_spec, cwd_with_out.
  destruct (entry "setup.py" (cwd st)) as [n|] eqn:Hsetup.
  2:{ rewrite bool_decide_eq_false_2 by (by intros [? ?]). cbn [negb].
      step_bind. rewrite print_spec. unfold Scripts.sys_exit.
      eexists _, _, []. split; [reflexivity|]. cbn.
      rewrite app_nil_r. by repeat split. }
  rewrite bool_decide_eq_true_2 by eauto. cbn [negb].
  step_bind. unfold InstallDev.install_dev_dependencies. cbn [run_all]. step_bind.
  fold i1. fold i2.
  destruct (run_command_spec i1 "Upgrading pip"
              (with_out (out st ++ [say "🚀 Setting up Miragic SDK for development..."]) st))
    as (s1 & -> & Hc1 & Hs1 & Hr1 & Hi1).
  cbn in Hc1, Hs1, Hr1, Hi1. cbn [shell cwd with_out].
  fold d1 in Hc1, Hr1 |- *.
  destruct (returncode d1 =? 0)%Z eqn:Hrc1; cbn [negb].
  2:{ cbn. eexists _, _, [(i1, returncode d1)]. split; [reflexivity|]. cbn.
      repeat split; try done; congruence. }
  apply Z.eqb_eq in Hrc1. step_bind.
  destruct (run_command_spec i2 "Installing development dependencies" s1)
    as (s2 & -> & Hc2 & Hs2 & Hr2 & Hi2).
  rewrite Hs1, Hc1 in Hc2, Hr2. rewrite Hs1, Hc1. fold d2 in Hc2, Hr2 |- *.
  assert (ran s2 = (ran st ++ [(i1, 0); (i2, returncode d2)])%list) as Hran2
    by (rewrite Hr2, Hr1, Hrc1; by rewrite <- app_assoc).
  destruct (returncode d2 =? 0)%Z eqn:Hrc2; cbn [negb].
  2:{ cbn. eexists _, _, [(i1, 0); (i2, returncode d2)]. split; [reflexivity|]. cbn.
      repeat split; try done; congruence. }
  apply Z.eqb_eq in Hrc2. rewrite Hrc2 in Hran2.
  cbn [mret Script_ret script_ret negb].
  step_bind. unfold InstallDev.install_package_editable. fold i3.
  destruct (run_command_spec i3 "Installing package in editable mode" s2)
    as (s3 & -> & Hc3 & Hs3 & Hr3 & Hi3).
  rewrite Hs2, Hs1, Hc2 in Hc3, Hr3. rewrite Hs2, Hs1, Hc2. fold d3 in Hc3, Hr3 |- *.
  assert (ran s3 = (ran st ++ [(i1, 0); (i2, 0); (i3, returncode d3)])%list) as Hran3
    by (rewrite Hr3, Hran2; by rewrite <- app_assoc).
  destruct (returncode d3 =? 0)%Z eqn:Hrc3; cbn [negb].
  2:{ cbn. eexists _, _, [(i1, 0); (i2, 0); (i3, returncode d3)].
      split; [reflexivity|]. cbn.
      repeat split; try done; congruence. }
  apply Z.eqb_eq in Hrc3. rewrite Hrc3 in Hran3.
  step_bind. rewrite path_exists_spec, Hc3.
  destruct (entry "tests" (cwd_after d3)) as [nt|] eqn:Htests.
  2:{ rewrite !bool_decide_eq_false_2 by (by intros [? ?]).
      cbn. eexists _, _, [(i1, 0); (i2, 0); (i3, 0)]. split; [reflexivity|]. cbn.
      repeat split; try done; congruence. }
  rewrite !bool_decide_eq_true_2 by eauto.
  step_bind. step_bind. unfold InstallDev.run_tests. fold t.
  destruct (run_command_spec t "Running tests" s3)
    as (s4 & -> & Hc4 & Hs4 & Hr4 & Hi4).
  rewrite Hs3, Hs2, Hs1, Hc3 in Hc4, Hr4. rewrite Hs3, Hs2, Hs1, Hc3.
  fold d4 in Hc4, Hr4 |- *.
  assert (ran s4 = (ran st ++ [(i1, 0); (i2, 0); (i3, 0); (t, returncode d4)])%list)
    as Hran4 by (rewrite Hr4, Hran3; by rewrite <- app_assoc).
  destruct (returncode d4 =? 0)%Z; cbn [negb];
    (cbn; eexists _, _, [(i1, 0); (i2, 0); (i3, 0); (t, returncode d4)];
     split; [reflexivity|]; cbn;
     repeat split; try done; congruence).
Qed.
